(** * The Python instrumenter of [.ai-agents/logging/runtime/adapters/python.adapter.py]

    A shallow embedding of the instrumentation adapter: the syntax tree the
    adapter rewrites, the two [ast.NodeTransformer] subclasses
    ([ReturnTransformer] and [FunctionWrapper]), the instrumentation policy,
    and the file operations of [PythonInstrumenter] over an explicit file
    store with exceptions. *)

From Stdlib Require Import ZArith Ascii String.
From stdpp Require Import gmap strings list fin_maps.

Local Open Scope string_scope.

#[local] Set Warnings "-register-all".

(** ** Syntax trees

    The part of Python's [ast] that the adapter looks at or builds.
    Expressions never contain statements, so the expression forms the adapter
    does not build itself are kept as source text ([OtherExpr]).  Statements
    without statements of their own ([pass], [import], [global], ...) are
    [Simple]; the compound statements not listed ([async for],
    [async with], [match]) are traversed like [For], [With] and [If]. *)

Inductive constant : Type :=
| CStr (s : string)
| CInt (z : Z)
| CNone.

Inductive expr : Type :=
| Name (id : string)
| Constant (value : constant)
| Attribute (value : expr) (attr : string)
| Call (func : expr) (args : list expr)
| Dict (keys values : list expr)
| OtherExpr (src : string).

(** [ast.arguments]: only [args] (the plain positional parameters) is read by
    the adapter; the other parameter kinds are carried along untouched. *)
Record arguments : Type := mk_arguments {
  posonlyargs : list string;
  args : list string;
  vararg : option string;
  kwonlyargs : list string;
  kwarg : option string
}.

Inductive stmt : Type :=
| FunctionDef (name : string) (a : arguments) (body : list stmt)
              (decorator_list : list expr)
| AsyncFunctionDef (name : string) (a : arguments) (body : list stmt)
                   (decorator_list : list expr)
| ClassDef (name : string) (bases : list expr) (body : list stmt)
           (decorator_list : list expr)
| Return (value : option expr)
| Assign (targets : list expr) (value : expr)
| Expr (value : expr)
| Raise (exc : option expr)
| If (test : expr) (body orelse : list stmt)
| For (target iter : expr) (body orelse : list stmt)
| While (test : expr) (body orelse : list stmt)
| With (items : list expr) (body : list stmt)
| Try (body : list stmt) (handlers : list excepthandler)
      (orelse finalbody : list stmt)
| Simple (src : string)
with excepthandler : Type :=
| ExceptHandler (type : option expr) (name : option string) (body : list stmt).

Inductive module : Type :=
| Module (body : list stmt).

(** ** ReturnTransformer

    [ast.NodeTransformer.visit] dispatches on the node class; the only
    override is [visit_Return].  Every other node goes through
    [generic_visit], which visits each child node of each field in turn. *)

Definition tracer_attr (attr : string) : expr :=
  Attribute (Name "__tracer") attr.

Definition end_function_call (value : expr) : expr :=
  Call (tracer_attr "end_function") [Name "__ctx"; value].

(** [visit_Return]: an [ast] node is always truthy, so [if node.value] tests
    for the presence of a value expression. *)
Definition visit_Return (value : option expr) : stmt :=
  match value with
  | Some v => Return (Some (end_function_call v))
  | None => Return None
  end.

Module ReturnTransformer.

Fixpoint visit (s : stmt) : stmt :=
  match s with
  | Return value => visit_Return value
  | FunctionDef n a body d => FunctionDef n a (map visit body) d
  | AsyncFunctionDef n a body d => AsyncFunctionDef n a (map visit body) d
  | ClassDef n b body d => ClassDef n b (map visit body) d
  | Assign t v => Assign t v
  | Expr v => Expr v
  | Raise e => Raise e
  | If t body orelse => If t (map visit body) (map visit orelse)
  | For t i body orelse => For t i (map visit body) (map visit orelse)
  | While t body orelse => While t (map visit body) (map visit orelse)
  | With i body => With i (map visit body)
  | Try body handlers orelse finalbody =>
      Try (map visit body) (map visit_handler handlers)
          (map visit orelse) (map visit finalbody)
  | Simple src => Simple src
  end
with visit_handler (h : excepthandler) : excepthandler :=
  match h with
  | ExceptHandler t n body => ExceptHandler t n (map visit body)
  end.

End ReturnTransformer.

(** [FunctionWrapper._transform_returns]: a fresh [ReturnTransformer] is run
    over each statement of the body. *)
Definition _transform_returns (body : list stmt) : list stmt :=
  map ReturnTransformer.visit body.

(** ** Positions in a body

    A statement inside a body is addressed by the way down to it: at each
    step the index of a compound statement in the current block and the field
    of that statement that is entered, then the index of the statement in the
    last block. *)

Inductive field : Type :=
| in_body
| in_orelse
| in_finalbody
| in_handler (h : nat).

Definition handler_body (h : excepthandler) : list stmt :=
  match h with ExceptHandler _ _ body => body end.

Definition block_of (f : field) (s : stmt) : option (list stmt) :=
  match s, f with
  | FunctionDef _ _ body _, in_body => Some body
  | AsyncFunctionDef _ _ body _, in_body => Some body
  | ClassDef _ _ body _, in_body => Some body
  | If _ body _, in_body => Some body
  | If _ _ orelse, in_orelse => Some orelse
  | For _ _ body _, in_body => Some body
  | For _ _ _ orelse, in_orelse => Some orelse
  | While _ body _, in_body => Some body
  | While _ _ orelse, in_orelse => Some orelse
  | With _ body, in_body => Some body
  | Try body _ _ _, in_body => Some body
  | Try _ handlers _ _, in_handler h => handler_body <$> handlers !! h
  | Try _ _ orelse _, in_orelse => Some orelse
  | Try _ _ _ finalbody, in_finalbody => Some finalbody
  | _, _ => None
  end.

Definition position : Type := list (nat * field) * nat.

Fixpoint stmt_at_steps (steps : list (nat * field)) (i : nat)
    (block : list stmt) : option stmt :=
  match steps with
  | [] => block !! i
  | (j, f) :: steps' =>
      match block !! j with
      | Some s =>
          match block_of f s with
          | Some inner => stmt_at_steps steps' i inner
          | None => None
          end
      | None => None
      end
  end.

Definition stmt_at (p : position) (block : list stmt) : option stmt :=
  stmt_at_steps (fst p) (snd p) block.

Definition is_function_def (s : stmt) : bool :=
  match s with
  | FunctionDef _ _ _ _ | AsyncFunctionDef _ _ _ _ => true
  | _ => false
  end.

(** Does the way down to a position enter the body of a function or coroutine
    definition nested in the block? *)
Fixpoint enters_function_def (steps : list (nat * field))
    (block : list stmt) : bool :=
  match steps with
  | [] => false
  | (j, f) :: steps' =>
      match block !! j with
      | Some s =>
          match block_of f s with
          | Some inner => is_function_def s || enters_function_def steps' inner
          | None => false
          end
      | None => false
      end
  end.

(** ** Strings, as the policy uses them *)

(** [str.split(',')]: the pieces between commas; the empty string gives one
    empty piece. *)
Fixpoint split_on (sep : ascii) (s : string) : list string :=
  match s with
  | EmptyString => [EmptyString]
  | String c s' =>
      if Ascii.eqb c sep then EmptyString :: split_on sep s'
      else match split_on sep s' with
           | piece :: pieces => String c piece :: pieces
           | [] => [String c EmptyString]
           end
  end.

(** A string is the UTF-8 encoding of the Python [str], one [ascii] per
    byte.  [str.isspace] holds for the ASCII characters 9 to 13 and 28 to
    32, and for U+0085, U+00A0, U+1680, U+2000 to U+200A, U+2028, U+2029,
    U+202F, U+205F and U+3000, which take two or three bytes. *)
Definition is_space (c : ascii) : bool :=
  let n := nat_of_ascii c in
  ((9 <=? n)%nat && (n <=? 13)%nat) || ((28 <=? n)%nat && (n <=? 32)%nat).

(** U+0085 (C2 85) and U+00A0 (C2 A0). *)
Definition is_space2 (c1 c2 : ascii) : bool :=
  let n1 := nat_of_ascii c1 in
  let n2 := nat_of_ascii c2 in
  (n1 =? 194)%nat && ((n2 =? 133)%nat || (n2 =? 160)%nat).

(** U+1680 (E1 9A 80), U+2000 to U+200A (E2 80 80 to E2 80 8A), U+2028 and
    U+2029 (E2 80 A8, E2 80 A9), U+202F (E2 80 AF), U+205F (E2 81 9F) and
    U+3000 (E3 80 80). *)
Definition is_space3 (c1 c2 c3 : ascii) : bool :=
  let n1 := nat_of_ascii c1 in
  let n2 := nat_of_ascii c2 in
  let n3 := nat_of_ascii c3 in
  ((n1 =? 225)%nat && (n2 =? 154)%nat && (n3 =? 128)%nat) ||
  ((n1 =? 226)%nat && (n2 =? 128)%nat &&
   (((128 <=? n3)%nat && (n3 <=? 138)%nat) ||
    (n3 =? 168)%nat || (n3 =? 169)%nat || (n3 =? 175)%nat)) ||
  ((n1 =? 226)%nat && (n2 =? 129)%nat && (n3 =? 159)%nat) ||
  ((n1 =? 227)%nat && (n2 =? 128)%nat && (n3 =? 128)%nat).

Fixpoint lstrip (s : string) : string :=
  match s with
  | String c1 s1 =>
      if is_space c1 then lstrip s1
      else
        match s1 with
        | String c2 s2 =>
            if is_space2 c1 c2 then lstrip s2
            else
              match s2 with
              | String c3 s3 => if is_space3 c1 c2 c3 then lstrip s3 else s
              | EmptyString => s
              end
        | EmptyString => s
        end
  | EmptyString => EmptyString
  end.

(** Nothing but white space from here to the end. *)
Fixpoint all_space (s : string) : bool :=
  match s with
  | String c1 s1 =>
      if is_space c1 then all_space s1
      else
        match s1 with
        | String c2 s2 =>
            if is_space2 c1 c2 then all_space s2
            else
              match s2 with
              | String c3 s3 => is_space3 c1 c2 c3 && all_space s3
              | EmptyString => false
              end
        | EmptyString => false
        end
  | EmptyString => true
  end.

Fixpoint rstrip (s : string) : string :=
  match s with
  | String c s' => if all_space s then EmptyString else String c (rstrip s')
  | EmptyString => EmptyString
  end.

Definition strip (s : string) : string := rstrip (lstrip s).

(** [s.startswith(p)] *)
Definition startswith (s p : string) : bool := String.prefix p s.

(** [needle in hay] on strings. *)
Fixpoint contains (hay needle : string) : bool :=
  String.prefix needle hay ||
  match hay with
  | String _ hay' => contains hay' needle
  | EmptyString => false
  end.

(** A Python string is truthy when it is not empty. *)
Definition nonempty (s : string) : bool :=
  match s with EmptyString => false | _ => true end.

(** ** Exceptions and the host

    An exception carries its class name and the message [str(e)] returns.
    The exceptions here are the instances of [Exception], which is what the
    steps of the adapter raise and what [except Exception] catches;
    [KeyboardInterrupt] and [SystemExit] reach a program from outside and
    are no outcome of a step. *)

Inductive exn : Type :=
| Exc (cls msg : string).

Definition exn_str (e : exn) : string :=
  match e with Exc _ msg => msg end.

Inductive platform : Type :=
| Posix
| Windows.

(** A pure path is the list of its parts, as [pathlib] keeps it. *)
Abbreviation path := (list string).

(** What the adapter takes from its surroundings: the working directory,
    the environment variables ([os.getenv(name, '')]), how [pathlib.Path]
    splits a string into parts, the platform (it fixes the line separator
    that text-mode output writes for a newline), the two library calls
    [ast.parse] and [astor.to_source], either of which may raise, and
    [print], which writes a line to standard output and raises when the
    stream is closed or cannot encode the line. *)
Record Host : Type := mk_Host {
  cwd : path;
  getenv : string -> string;
  Path : string -> path;
  os : platform;
  ast_parse : string -> exn + module;
  to_source : module -> exn + string;
  print : string -> exn + unit
}.

(** ** InstrumentOptions *)

Record InstrumentOptions : Type := mk_InstrumentOptions {
  level : Z;
  capture_params : bool;
  capture_return : bool;
  capture_vars : bool;
  capture_async : bool;
  functions : list string;
  exclude_functions : list string
}.

Definition default_options : InstrumentOptions :=
  mk_InstrumentOptions 2 true true false true [] [].

(** ** FunctionWrapper: the instrumentation policy *)

Module FunctionWrapper.

Definition special_methods : list string :=
  ["__init__"; "__str__"; "__repr__"; "__eq__"].

Section Policy.

Variable host : Host.
Variable options : InstrumentOptions.

Definition _get_excluded_functions : list string :=
  let excluded := exclude_functions options in
  let env_excluded := getenv host "TRACING_EXCLUDE_FUNCTIONS" in
  let excluded :=
    if nonempty env_excluded
    then (excluded ++ map strip (split_on ","%char env_excluded))%list
    else excluded in
  (excluded ++ special_methods)%list.

Definition matches_excluded_prefix (env_prefixes func_name : string) : bool :=
  existsb (fun prefix => startswith func_name (strip prefix))
          (split_on ","%char env_prefixes).

Definition _should_instrument (func_name : string) : bool :=
  if bool_decide (func_name ∈ _get_excluded_functions) then false
  else if negb (bool_decide (functions options = [])) then
    bool_decide (func_name ∈ functions options)
  else
    let env_prefixes := getenv host "TRACING_EXCLUDE_FUNCTION_PREFIXES" in
    if nonempty env_prefixes && matches_excluded_prefix env_prefixes func_name
    then false
    else true.

End Policy.

(** ** FunctionWrapper: the tree rewriter

    The transformer object keeps the counter [functions_wrapped]; the
    traversal threads it through as state. *)

(** [generic_visit] over a list field: visit the items from left to right. *)
Definition visit_each {A : Type} (visit : A -> nat -> A * nat)
    : list A -> nat -> list A * nat :=
  fix go (l : list A) (n : nat) {struct l} : list A * nat :=
    match l with
    | [] => ([], n)
    | x :: l' =>
        let (x', n1) := visit x n in
        let (l'', n2) := go l' n1 in
        (x' :: l'', n2)
    end.

Section Wrapper.

Variable host : Host.
Variable file_path : string.
Variable options : InstrumentOptions.

Definition tracer_call (attr : string) (arguments : list expr) : expr :=
  Call (tracer_attr attr) arguments.

(** Level 1: entry and exit calls around the body. *)
Definition _wrap_minimal (name : string) (body : list stmt) : list stmt :=
  let enter_call :=
    Expr (tracer_call "enter"
            [Constant (CStr name); Constant (CStr file_path)]) in
  let exit_call := Expr (tracer_call "exit" [Constant (CStr name)]) in
  ([enter_call] ++ body ++ [exit_call])%list.

Definition _create_params_dict (a : arguments) : expr :=
  Dict (map (fun arg => Constant (CStr arg)) (args a))
       (map (fun arg => Name arg) (args a)).

Definition start_call (name : string) (a : arguments) : stmt :=
  Assign [Name "__ctx"]
         (tracer_call "start_function"
            [Constant (CStr name); Constant (CStr file_path);
             _create_params_dict a]).

Definition except_handler : excepthandler :=
  ExceptHandler (Some (Name "Exception")) (Some "error")
    [Expr (tracer_call "error_function" [Name "__ctx"; Name "error"]);
     Raise (Some (Name "error"))].

(** Level 2: context acquisition, then the body with its returns rerouted,
    inside a [try] whose handler reports and re-raises. *)
Definition _wrap_standard (name : string) (a : arguments)
    (body : list stmt) : list stmt :=
  let try_body := _transform_returns body in
  [start_call name a; Try try_body [except_handler] [] []].

(** Level 3 and the rest: the same as level 2. *)
Definition _wrap_detailed (name : string) (a : arguments)
    (body : list stmt) : list stmt :=
  _wrap_standard name a body.

(** [_wrap_async] builds the same statements as [_wrap_standard]. *)
Definition _wrap_async (name : string) (a : arguments)
    (body : list stmt) : list stmt :=
  let try_body := _transform_returns body in
  [start_call name a; Try try_body [except_handler] [] []].

Definition visit_FunctionDef (name : string) (a : arguments)
    (body : list stmt) (decorator_list : list expr) (functions_wrapped : nat)
    : stmt * nat :=
  if negb (_should_instrument host options name) then
    (FunctionDef name a body decorator_list, functions_wrapped)
  else
    let functions_wrapped := S functions_wrapped in
    if (level options =? 0)%Z then
      (FunctionDef name a body decorator_list, functions_wrapped)
    else if (level options =? 1)%Z then
      (FunctionDef name a (_wrap_minimal name body) decorator_list,
       functions_wrapped)
    else if (level options =? 2)%Z then
      (FunctionDef name a (_wrap_standard name a body) decorator_list,
       functions_wrapped)
    else
      (FunctionDef name a (_wrap_detailed name a body) decorator_list,
       functions_wrapped).

Definition visit_AsyncFunctionDef (name : string) (a : arguments)
    (body : list stmt) (decorator_list : list expr) (functions_wrapped : nat)
    : stmt * nat :=
  if negb (_should_instrument host options name) then
    (AsyncFunctionDef name a body decorator_list, functions_wrapped)
  else
    let functions_wrapped := S functions_wrapped in
    if (level options =? 0)%Z then
      (AsyncFunctionDef name a body decorator_list, functions_wrapped)
    else
      (AsyncFunctionDef name a (_wrap_async name a body) decorator_list,
       functions_wrapped).

(** [FunctionWrapper.visit]: the two overrides return without calling
    [generic_visit], so the traversal stops at a definition; every other
    compound statement is entered field by field. *)
Fixpoint visit (s : stmt) (n : nat) {struct s} : stmt * nat :=
  match s with
  | FunctionDef name a body d => visit_FunctionDef name a body d n
  | AsyncFunctionDef name a body d => visit_AsyncFunctionDef name a body d n
  | ClassDef name b body d =>
      let (body', n1) := visit_each visit body n in
      (ClassDef name b body' d, n1)
  | Return v => (Return v, n)
  | Assign t v => (Assign t v, n)
  | Expr v => (Expr v, n)
  | Raise e => (Raise e, n)
  | If t body orelse =>
      let (body', n1) := visit_each visit body n in
      let (orelse', n2) := visit_each visit orelse n1 in
      (If t body' orelse', n2)
  | For t i body orelse =>
      let (body', n1) := visit_each visit body n in
      let (orelse', n2) := visit_each visit orelse n1 in
      (For t i body' orelse', n2)
  | While t body orelse =>
      let (body', n1) := visit_each visit body n in
      let (orelse', n2) := visit_each visit orelse n1 in
      (While t body' orelse', n2)
  | With i body =>
      let (body', n1) := visit_each visit body n in
      (With i body', n1)
  | Try body handlers orelse finalbody =>
      let (body', n1) := visit_each visit body n in
      let (handlers', n2) := visit_each visit_handler handlers n1 in
      let (orelse', n3) := visit_each visit orelse n2 in
      let (finalbody', n4) := visit_each visit finalbody n3 in
      (Try body' handlers' orelse' finalbody', n4)
  | Simple src => (Simple src, n)
  end
with visit_handler (h : excepthandler) (n : nat) {struct h}
    : excepthandler * nat :=
  match h with
  | ExceptHandler t name body =>
      let (body', n1) := visit_each visit body n in
      (ExceptHandler t name body', n1)
  end.

Definition visit_Module (tree : module) (n : nat) : module * nat :=
  match tree with
  | Module body =>
      let (body', n1) := visit_each visit body n in
      (Module body', n1)
  end.

End Wrapper.

End FunctionWrapper.

(** ** Files

    The store maps a path to the characters the file holds; the file a
    string names is the one under the pure path [Path] makes of it
    (links, [..] and the resolution of relative paths are left out), and
    directories are not files of the store, so creating them changes
    nothing.  Files are opened in text mode with the default
    [newline=None]: reading turns each CR LF and each lone CR into LF,
    writing turns each LF into the platform's line separator.  A file that
    cannot be opened for reading is absent from the store; every write goes
    through. *)

Definition CR : ascii := ascii_of_nat 13.
Definition LF : ascii := ascii_of_nat 10.

(** [os.linesep], put in front of the rest of the text: LF on POSIX, CR LF
    on Windows. *)
Definition os_linesep (p : platform) (rest : string) : string :=
  match p with
  | Posix => String LF rest
  | Windows => String CR (String LF rest)
  end.

Fixpoint universal_newlines (raw : string) : string :=
  match raw with
  | EmptyString => EmptyString
  | String c rest =>
      if Ascii.eqb c CR then
        match rest with
        | String c' rest' =>
            if Ascii.eqb c' LF then String LF (universal_newlines rest')
            else String LF (universal_newlines rest)
        | EmptyString => String LF EmptyString
        end
      else String c (universal_newlines rest)
  end.

Fixpoint translate_newlines (p : platform) (text : string) : string :=
  match text with
  | EmptyString => EmptyString
  | String c rest =>
      if Ascii.eqb c LF then os_linesep p (translate_newlines p rest)
      else String c (translate_newlines p rest)
  end.

Abbreviation store := (gmap (list string) string).

(** A computation over the store that returns a value or raises; what was
    written before an exception stays written. *)
Definition io (A : Type) : Type := store -> (exn + A) * store.

#[global] Instance io_ret : MRet io :=
  fun A (x : A) st => (inr x, st).

#[global] Instance io_bind : MBind io :=
  fun A B (k : A -> io B) (m : io A) st =>
    match m st with
    | (inr x, st') => k x st'
    | (inl e, st') => (inl e, st')
    end.

Definition raise {A : Type} (e : exn) : io A :=
  fun st => (inl e, st).

Definition lift {A : Type} (r : exn + A) : io A :=
  fun st => (r, st).

(** [try: body except Exception as e: handler(e)] *)
Definition try_except {A : Type} (body : io A) (handler : exn -> io A)
    : io A :=
  fun st =>
    match body st with
    | (inl e, st') => handler e st'
    | (inr x, st') => (inr x, st')
    end.

Definition file_not_found : exn :=
  Exc "FileNotFoundError" "No such file or directory".

Definition not_in_subpath : exn :=
  Exc "ValueError" "path is not in the subpath of the working directory".

Section Files.

Variable host : Host.

(** [with open(p, 'r', encoding='utf-8') as f: f.read()] *)
Definition open_read (p : path) : io string :=
  fun st =>
    match st !! p with
    | Some raw => (inr (universal_newlines raw), st)
    | None => (inl file_not_found, st)
    end.

(** [with open(p, 'w', encoding='utf-8') as f: f.write(text)] *)
Definition open_write (p : path) (text : string) : io unit :=
  fun st => (inr tt, <[p := translate_newlines (os host) text]> st).

(** [p.exists()] *)
Definition path_exists (p : path) : io bool :=
  fun st => (inr (bool_decide (is_Some (st !! p))), st).

(** [p.relative_to(base)]: the parts of [p] after those of [base]; a
    [ValueError] when [base] is not a leading part of [p]. *)
Fixpoint strip_parts (p base : path) : option path :=
  match base, p with
  | [], _ => Some p
  | b :: base', x :: p' =>
      if String.eqb b x then strip_parts p' base' else None
  | _ :: _, [] => None
  end.

Definition relative_to (p base : path) : exn + path :=
  match strip_parts p base with
  | Some rel => inr rel
  | None => inl not_in_subpath
  end.

End Files.

(** ** PythonInstrumenter *)

(** The values the result dictionary holds. *)
Inductive pyval : Type :=
| VBool (b : bool)
| VInt (z : Z)
| VStr (s : string)
| VPath (p : path).

Abbreviation dict := (gmap string pyval).

Record PythonInstrumenter : Type := mk_PythonInstrumenter {
  backup_dir : path
}.

Definition backup_parts : path :=
  [".ai-agents"; "logging"; "backups"; "original"].

Definition tracer_marker : string := "__tracer".
Definition tracer_module : string := "from .ai_agents.logging.runtime.tracer".

Definition import_statement : string :=
  "from .ai_agents.logging.runtime.tracer import __tracer" ++
  String LF (String LF EmptyString).

(** [str.join] with a newline between the lines. *)
Fixpoint join_lines (lines : list string) : string :=
  match lines with
  | [] => EmptyString
  | [line] => line
  | line :: rest => line ++ String LF (join_lines rest)
  end.

Section Instrumenter.

Variable host : Host.

(** [__init__]: the backup root is fixed from the working directory at
    construction (the directories it creates are not files of the store). *)
Definition new_instrumenter : PythonInstrumenter :=
  {| backup_dir := (cwd host ++ backup_parts)%list |}.

Variable self : PythonInstrumenter.

Definition _add_tracer_import (code : string) : string :=
  import_statement ++ code.

Definition _is_instrumented (code : string) : bool :=
  contains code tracer_marker || contains code tracer_module.

Definition _remove_instrumentation (code : string) : string :=
  let lines := split_on LF code in
  let cleaned_lines :=
    filter (fun line =>
              negb (contains line tracer_marker) &&
              negb (contains line tracer_module) = true) lines in
  join_lines cleaned_lines.

Definition _get_backup_path (file_path : string) : io path :=
  relative_path ← lift (relative_to (Path host file_path) (cwd host));
  mret (backup_dir self ++ relative_path)%list.

Definition _create_backup (file_path : string) (content : string)
    : io path :=
  relative_path ← lift (relative_to (Path host file_path) (cwd host));
  let backup_path := (backup_dir self ++ relative_path)%list in
  open_write host backup_path content ;;
  mret backup_path.

Definition failure_result (error : string) (backup_path : pyval) : dict :=
  {[ "success" := VBool false;
     "error" := VStr error;
     "functions_wrapped" := VInt 0;
     "backup_path" := backup_path ]}.

Definition success_result (original_code instrumented_code : string)
    (functions_wrapped : nat) (backup_path : path) : dict :=
  {[ "success" := VBool true;
     "original_code" := VStr original_code;
     "instrumented_code" := VStr instrumented_code;
     "functions_wrapped" := VInt (Z.of_nat functions_wrapped);
     "backup_path" := VPath backup_path ]}.

Definition already_instrumented : string :=
  "File is already instrumented. Use uninstrument first.".

(** The statements under [try:] in [instrument_file].
    [ast.fix_missing_locations] fills in line numbers, which the trees here
    do not carry. *)
Definition instrument_steps (file_path : string)
    (options : InstrumentOptions) : io dict :=
  original_code ← open_read (Path host file_path);
  backup_path ← _create_backup file_path original_code;
  if _is_instrumented original_code then
    mret (failure_result already_instrumented (VPath backup_path))
  else
    tree ← lift (ast_parse host original_code);
    let (new_tree, functions_wrapped) :=
      FunctionWrapper.visit_Module host file_path options tree 0 in
    instrumented_code ← lift (to_source host new_tree);
    let instrumented_code := _add_tracer_import instrumented_code in
    open_write host (Path host file_path) instrumented_code ;;
    mret (success_result original_code instrumented_code
            functions_wrapped backup_path).

Definition instrument_file (file_path : string)
    (options : InstrumentOptions) : io dict :=
  try_except (instrument_steps file_path options)
    (fun e => mret (failure_result (exn_str e) (VStr EmptyString))).

(** The statements under [try:] in [uninstrument_file]. *)
Definition uninstrument_steps (file_path : string) (restore : bool)
    : io bool :=
  if restore then
    backup_path ← _get_backup_path file_path;
    found ← path_exists backup_path;
    if (found : bool) then
      original_code ← open_read backup_path;
      open_write host (Path host file_path) original_code ;;
      mret true
    else mret false
  else
    code ← open_read (Path host file_path);
    let cleaned := _remove_instrumentation code in
    open_write host (Path host file_path) cleaned ;;
    mret true.

(** The line the handler of [uninstrument_file] prints:
    [f'[Instrumenter] Failed to uninstrument: {e}']. *)
Definition uninstrument_failure (e : exn) : string :=
  "[Instrumenter] Failed to uninstrument: " ++ exn_str e.

(** The handler prints before it returns; an exception that [print] raises
    there is raised inside the [except] block and leaves the function.  The
    line printed is not part of the store. *)
Definition uninstrument_file (file_path : string) (restore : bool)
    : io bool :=
  try_except (uninstrument_steps file_path restore)
    (fun e => lift (print host (uninstrument_failure e)) ;; mret false).

End Instrumenter.

(** ** The definitions of a tree

    Two ways to list the function and coroutine definitions below a
    statement: every definition, including those nested in the body of
    another definition, and only those reached without entering the body of
    a definition. *)

Fixpoint all_definitions (s : stmt) : list string :=
  match s with
  | FunctionDef name _ body _ => name :: flat_map all_definitions body
  | AsyncFunctionDef name _ body _ => name :: flat_map all_definitions body
  | ClassDef _ _ body _ => flat_map all_definitions body
  | If _ body orelse =>
      flat_map all_definitions body ++ flat_map all_definitions orelse
  | For _ _ body orelse =>
      flat_map all_definitions body ++ flat_map all_definitions orelse
  | While _ body orelse =>
      flat_map all_definitions body ++ flat_map all_definitions orelse
  | With _ body => flat_map all_definitions body
  | Try body handlers orelse finalbody =>
      flat_map all_definitions body ++
      flat_map all_definitions_handler handlers ++
      flat_map all_definitions orelse ++
      flat_map all_definitions finalbody
  | Return _ | Assign _ _ | Expr _ | Raise _ | Simple _ => []
  end%list
with all_definitions_handler (h : excepthandler) : list string :=
  match h with
  | ExceptHandler _ _ body => flat_map all_definitions body
  end.

Fixpoint outer_definitions (s : stmt) : list string :=
  match s with
  | FunctionDef name _ _ _ => [name]
  | AsyncFunctionDef name _ _ _ => [name]
  | ClassDef _ _ body _ => flat_map outer_definitions body
  | If _ body orelse =>
      flat_map outer_definitions body ++ flat_map outer_definitions orelse
  | For _ _ body orelse =>
      flat_map outer_definitions body ++ flat_map outer_definitions orelse
  | While _ body orelse =>
      flat_map outer_definitions body ++ flat_map outer_definitions orelse
  | With _ body => flat_map outer_definitions body
  | Try body handlers orelse finalbody =>
      flat_map outer_definitions body ++
      flat_map outer_definitions_handler handlers ++
      flat_map outer_definitions orelse ++
      flat_map outer_definitions finalbody
  | Return _ | Assign _ _ | Expr _ | Raise _ | Simple _ => []
  end%list
with outer_definitions_handler (h : excepthandler) : list string :=
  match h with
  | ExceptHandler _ _ body => flat_map outer_definitions body
  end.

Definition module_body (tree : module) : list stmt :=
  match tree with Module body => body end.

(** How many of the listed names the policy admits. *)
Definition count_eligible (host : Host) (options : InstrumentOptions)
    (names : list string) : nat :=
  length (List.filter (FunctionWrapper._should_instrument host options) names).

Definition eligible_definitions (host : Host) (options : InstrumentOptions)
    (tree : module) : nat :=
  count_eligible host options (flat_map all_definitions (module_body tree)).

Definition eligible_outer_definitions (host : Host)
    (options : InstrumentOptions) (tree : module) : nat :=
  count_eligible host options (flat_map outer_definitions (module_body tree)).

(** No carriage return in a text: text-mode reading returns it as it is. *)
Fixpoint no_carriage_return (s : string) : bool :=
  match s with
  | EmptyString => true
  | String c rest => negb (Ascii.eqb c CR) && no_carriage_return rest
  end.

(** ** A small host for the examples

    A POSIX host working in [/proj], with a parser that knows a handful of
    source texts, an emitter that always succeeds and a standard output that
    takes every line. *)

Definition posix_parts (s : string) : path :=
  ((if startswith s "/" then ["/"] else []) ++
   filter (fun part => part ≠ EmptyString ∧ part ≠ ".")
          (split_on "/"%char s))%list.

Definition no_arguments : arguments := mk_arguments [] [] None [] None.

Definition nested_source : string :=
  "def outer():" ++ String LF
  ("    def inner():" ++ String LF
  ("        return 1" ++ String LF
  ("    return inner()" ++ String LF EmptyString))).

Definition inner_def : stmt :=
  FunctionDef "inner" no_arguments [Return (Some (Constant (CInt 1)))] [].

Definition outer_def : stmt :=
  FunctionDef "outer" no_arguments
    [inner_def; Return (Some (Call (Name "inner") []))] [].

Definition nested_tree : module := Module [outer_def].

Definition broken_source : string := "def broken(:" ++ String LF EmptyString.

Definition assignment_text : string := "x = 1" ++ String LF EmptyString.

Definition assignment_tree : module :=
  Module [Assign [Name "x"] (Constant (CInt 1))].

Definition demo_parse (code : string) : exn + module :=
  if String.eqb code nested_source then inr nested_tree
  else if String.eqb code assignment_text then inr assignment_tree
  else inl (Exc "SyntaxError" "invalid syntax").

Definition demo_to_source (tree : module) : exn + string :=
  inr "# generated source".

Definition demo_getenv (name : string) : string :=
  if String.eqb name "TRACING_EXCLUDE_FUNCTION_PREFIXES" then "get_, _"
  else if String.eqb name "TRACING_EXCLUDE_FUNCTIONS" then "main"
  else EmptyString.

Definition demo_host : Host :=
  {| cwd := ["/"; "proj"];
     getenv := demo_getenv;
     Path := posix_parts;
     os := Posix;
     ast_parse := demo_parse;
     to_source := demo_to_source;
     print := fun _ => inr tt |}.

(** The same host after standard output was closed: every [print] raises
    [ValueError]. *)
Definition closed_stdout : exn :=
  Exc "ValueError" "I/O operation on closed file.".

Definition silenced_host : Host :=
  {| cwd := cwd demo_host;
     getenv := getenv demo_host;
     Path := Path demo_host;
     os := os demo_host;
     ast_parse := ast_parse demo_host;
     to_source := to_source demo_host;
     print := fun _ => inl closed_stdout |}.

Definition demo_self : PythonInstrumenter := new_instrumenter demo_host.

(** The same assignment with a CR LF line ending, as the file holds it. *)
Definition assignment_crlf : string :=
  "x = 1" ++ String CR (String LF EmptyString).

Definition traced_source : string :=
  "import __tracer" ++ String LF EmptyString.

Definition demo_store : store :=
  {[ posix_parts "/proj/app.py" := nested_source;
     posix_parts "/proj/crlf.py" := assignment_crlf;
     posix_parts "/proj/broken.py" := broken_source;
     posix_parts "/proj/traced.py" := traced_source;
     posix_parts "/tmp/traced.py" := traced_source ]}.

(** The body a definition carries. *)
Definition def_body (s : stmt) : list stmt :=
  match s with
  | FunctionDef _ _ body _ | AsyncFunctionDef _ _ body _ => body
  | _ => []
  end.

(** The protected region of a definition wrapped at level 2 or above: the
    body of the [try] that follows the context acquisition. *)
Definition protected_region (s : stmt) : list stmt :=
  match def_body s with
  | [_; Try body _ _ _] => body
  | _ => []
  end.

Definition def_name (s : stmt) : string :=
  match s with
  | FunctionDef name _ _ _ | AsyncFunctionDef name _ _ _ => name
  | _ => EmptyString
  end.

Definition only_get_value : InstrumentOptions :=
  mk_InstrumentOptions 2 true true false true ["get_value"] [].

Definition only_init : InstrumentOptions :=
  mk_InstrumentOptions 2 true true false true ["__init__"] [].

(** ** Notions the statements use *)

(** Steps 4 to 6 of [instrument_file] on the text read: parse, rewrite,
    emit. *)
Definition transformation (host : Host) (file_path : string)
    (options : InstrumentOptions) (code : string) : exn + string :=
  match ast_parse host code with
  | inl e => inl e
  | inr tree =>
      to_source host
        (fst (FunctionWrapper.visit_Module host file_path options tree 0))
  end.

(** Does a run on this store stop at the already-instrumented guard?  It
    does when the file is read, the snapshot is taken and the text holds a
    marker. *)
Definition guard_fires (host : Host) (file_path : string) (st : store)
    : bool :=
  match st !! Path host file_path,
        strip_parts (Path host file_path) (cwd host) with
  | Some raw, Some _ => _is_instrumented (universal_newlines raw)
  | _, _ => false
  end.

(** The dictionary a run returned (empty if it raised). *)
Definition result_of (r : (exn + dict) * store) : dict :=
  match fst r with
  | inr d => d
  | inl _ => ∅
  end.

(** ** Further notions *)

(** The options with another level. *)
Definition set_level (l : Z) (options : InstrumentOptions)
    : InstrumentOptions :=
  {| level := l;
     capture_params := capture_params options;
     capture_return := capture_return options;
     capture_vars := capture_vars options;
     capture_async := capture_async options;
     functions := functions options;
     exclude_functions := exclude_functions options |}.

(** The example host with other environment variables. *)
Definition host_with_env (env : string -> string) : Host :=
  {| cwd := cwd demo_host;
     getenv := env;
     Path := Path demo_host;
     os := os demo_host;
     ast_parse := ast_parse demo_host;
     to_source := to_source demo_host;
     print := print demo_host |}.

(** [TRACING_EXCLUDE_FUNCTION_PREFIXES=get_,] with its trailing comma. *)
Definition trailing_comma_env (name : string) : string :=
  if String.eqb name "TRACING_EXCLUDE_FUNCTION_PREFIXES" then "get_,"
  else EmptyString.

Definition empty_env (name : string) : string := EmptyString.

Definition only_main : InstrumentOptions :=
  mk_InstrumentOptions 2 true true false true ["main"] [].

(** The default options with [outer] on the exclusion list. *)
Definition without_outer : InstrumentOptions :=
  mk_InstrumentOptions 2 true true false true [] ["outer"].

(** The first line of the import statement, without its newlines. *)
Definition import_line : string :=
  "from .ai_agents.logging.runtime.tracer import __tracer".

(** Neither a carriage return nor a line feed in a text. *)
Fixpoint no_newline (s : string) : bool :=
  match s with
  | EmptyString => true
  | String c rest =>
      negb (Ascii.eqb c CR) && negb (Ascii.eqb c LF) && no_newline rest
  end.

(** Statements without blocks of their own, other than [return]. *)
Definition is_plain_stmt (s : stmt) : bool :=
  match s with
  | Assign _ _ | Expr _ | Raise _ | Simple _ => true
  | _ => false
  end.

(** What the wrapper makes of one statement (the tree, without the
    counter). *)
Definition wrapped (host : Host) (file_path : string)
    (options : InstrumentOptions) (s : stmt) : stmt :=
  fst (FunctionWrapper.visit host file_path options s 0).

Definition wrapped_handler (host : Host) (file_path : string)
    (options : InstrumentOptions) (h : excepthandler) : excepthandler :=
  fst (FunctionWrapper.visit_handler host file_path options h 0).

(** A class with one method, and a function under a conditional. *)
Definition method_def : stmt :=
  FunctionDef "area" (mk_arguments [] ["self"] None [] None)
    [Return (Some (Name "width"))] [].

Definition class_tree : list stmt :=
  [ClassDef "Shape" [] [Simple "pass"; method_def] [];
   If (Name "debug") [inner_def] []].

(** ** [get_functions_in_file]

    [ast.walk] takes nodes from the front of a queue and appends their
    children at the back.  Only statements and exception handlers can be or
    hold a definition, so the queue is kept for those: the expression
    nodes that [ast.walk] also visits have no statement below them and do
    not change the order in which statements come out. *)

Inductive node : Type :=
| NStmt (s : stmt)
| NHandler (h : excepthandler).

(** [ast.iter_child_nodes], field by field. *)
Definition child_nodes (n : node) : list node :=
  match n with
  | NStmt (FunctionDef _ _ body _) => map NStmt body
  | NStmt (AsyncFunctionDef _ _ body _) => map NStmt body
  | NStmt (ClassDef _ _ body _) => map NStmt body
  | NStmt (If _ body orelse) => map NStmt body ++ map NStmt orelse
  | NStmt (For _ _ body orelse) => map NStmt body ++ map NStmt orelse
  | NStmt (While _ body orelse) => map NStmt body ++ map NStmt orelse
  | NStmt (With _ body) => map NStmt body
  | NStmt (Try body handlers orelse finalbody) =>
      map NStmt body ++ map NHandler handlers ++
      map NStmt orelse ++ map NStmt finalbody
  | NStmt (Return _) | NStmt (Assign _ _) | NStmt (Expr _)
  | NStmt (Raise _) | NStmt (Simple _) => []
  | NHandler (ExceptHandler _ _ body) => map NStmt body
  end%list.

(** The loop of [ast.walk]; each turn takes one node, so the fuel bounds
    the number of nodes yielded. *)
Fixpoint walk (fuel : nat) (todo : list node) : list node :=
  match fuel, todo with
  | S fuel', n :: rest => n :: walk fuel' (rest ++ child_nodes n)%list
  | _, _ => []
  end.

(** The number of statement and handler nodes below a statement, itself
    included. *)
Fixpoint stmt_size (s : stmt) : nat :=
  match s with
  | FunctionDef _ _ body _ => S (list_sum (map stmt_size body))
  | AsyncFunctionDef _ _ body _ => S (list_sum (map stmt_size body))
  | ClassDef _ _ body _ => S (list_sum (map stmt_size body))
  | If _ body orelse =>
      S (list_sum (map stmt_size body) + list_sum (map stmt_size orelse))
  | For _ _ body orelse =>
      S (list_sum (map stmt_size body) + list_sum (map stmt_size orelse))
  | While _ body orelse =>
      S (list_sum (map stmt_size body) + list_sum (map stmt_size orelse))
  | With _ body => S (list_sum (map stmt_size body))
  | Try body handlers orelse finalbody =>
      S (list_sum (map stmt_size body) +
         list_sum (map handler_size handlers) +
         list_sum (map stmt_size orelse) +
         list_sum (map stmt_size finalbody))
  | Return _ | Assign _ _ | Expr _ | Raise _ | Simple _ => 1
  end
with handler_size (h : excepthandler) : nat :=
  match h with
  | ExceptHandler _ _ body => S (list_sum (map stmt_size body))
  end.

(** [isinstance(node, (ast.FunctionDef, ast.AsyncFunctionDef))]: the name
    to append, if any. *)
Definition definition_name (n : node) : list string :=
  match n with
  | NStmt (FunctionDef name _ _ _) => [name]
  | NStmt (AsyncFunctionDef name _ _ _) => [name]
  | _ => []
  end.

(** The names in the order [ast.walk] yields the nodes of a module (the
    module node comes first and is no definition). *)
Definition walk_function_names (tree : module) : list string :=
  flat_map definition_name
    (walk (list_sum (map stmt_size (module_body tree)))
          (map NStmt (module_body tree))).

(** The line the handler of [get_functions_in_file] prints:
    [f'[Instrumenter] Failed to get functions: {e}']. *)
Definition listing_failure (e : exn) : string :=
  "[Instrumenter] Failed to get functions: " ++ exn_str e.

Definition get_functions_in_file (host : Host) (file_path : string)
    : io (list string) :=
  try_except
    (code ← open_read (Path host file_path);
     tree ← lift (ast_parse host code);
     mret (walk_function_names tree))
    (fun e => lift (print host (listing_failure e)) ;; mret []).

Definition node_size (n : node) : nat :=
  match n with
  | NStmt s => stmt_size s
  | NHandler h => handler_size h
  end.

(** Every definition below a node, in the order of the source. *)
Definition node_definitions (n : node) : list string :=
  match n with
  | NStmt s => all_definitions s
  | NHandler h => all_definitions_handler h
  end.

(** A statement with the value of every return statement in it taken
    away, and everything else as it is: what two trees have in common when
    they differ in the values returned only. *)
Fixpoint without_return_values (s : stmt) : stmt :=
  match s with
  | Return _ => Return None
  | FunctionDef n a body d =>
      FunctionDef n a (map without_return_values body) d
  | AsyncFunctionDef n a body d =>
      AsyncFunctionDef n a (map without_return_values body) d
  | ClassDef n b body d => ClassDef n b (map without_return_values body) d
  | Assign t v => Assign t v
  | Expr v => Expr v
  | Raise e => Raise e
  | If t body orelse =>
      If t (map without_return_values body)
           (map without_return_values orelse)
  | For t i body orelse =>
      For t i (map without_return_values body)
              (map without_return_values orelse)
  | While t body orelse =>
      While t (map without_return_values body)
              (map without_return_values orelse)
  | With i body => With i (map without_return_values body)
  | Try body handlers orelse finalbody =>
      Try (map without_return_values body)
          (map handler_without_return_values handlers)
          (map without_return_values orelse)
          (map without_return_values finalbody)
  | Simple src => Simple src
  end
with handler_without_return_values (h : excepthandler) : excepthandler :=
  match h with
  | ExceptHandler t n body =>
      ExceptHandler t n (map without_return_values body)
  end.

(** * Properties *)

(** ** Return-statement normalization *)

Lemma lookup_map {A B : Type} (f : A -> B) (l : list A) (i : nat) :
  map f l !! i = f <$> l !! i.
Proof.
  revert i. induction l as [|x l IH]; intros [|i]; simpl; auto.
Qed.

(** The transformer enters every block of every compound statement, the
    body of a definition included. *)
Lemma block_of_visit (f : field) (s : stmt) :
  block_of f (ReturnTransformer.visit s) =
  map ReturnTransformer.visit <$> block_of f s.
Proof.
  destruct s as [| | |[v|]| | | | | | | | |]; destruct f; simpl; try reflexivity.
  rewrite lookup_map.
  destruct (handlers !! h) as [[t n b]|]; reflexivity.
Qed.

Lemma stmt_at_steps_transform (steps : list (nat * field)) (i : nat)
    (block : list stmt) :
  stmt_at_steps steps i (map ReturnTransformer.visit block) =
  ReturnTransformer.visit <$> stmt_at_steps steps i block.
Proof.
  revert block. induction steps as [|[j f] steps IH]; intros block; simpl.
  - apply lookup_map.
  - rewrite lookup_map. destruct (block !! j) as [s|]; simpl; [|reflexivity].
    rewrite block_of_visit.
    destruct (block_of f s) as [inner|]; simpl; [apply IH|reflexivity].
Qed.

Lemma stmt_at_transform_returns (p : position) (body : list stmt) :
  stmt_at p (_transform_returns body) =
  ReturnTransformer.visit <$> stmt_at p body.
Proof. apply stmt_at_steps_transform. Qed.

(** The statements a wrapping at level 2 or above puts in place of the
    body, for functions and for coroutines. *)
Lemma visit_FunctionDef_standard host file_path options name a body d n :
  (2 <= level options)%Z ->
  FunctionWrapper._should_instrument host options name = true ->
  FunctionWrapper.visit host file_path options (FunctionDef name a body d) n =
  (FunctionDef name a
     [FunctionWrapper.start_call file_path name a;
      Try (_transform_returns body) [FunctionWrapper.except_handler] [] []] d,
   S n).
Proof.
  intros Hlevel Hpolicy. simpl. unfold FunctionWrapper.visit_FunctionDef.
  rewrite Hpolicy. simpl.
  destruct (Z.eqb_spec (level options) 0); [lia|].
  destruct (Z.eqb_spec (level options) 1); [lia|].
  destruct (Z.eqb_spec (level options) 2); reflexivity.
Qed.

Lemma visit_AsyncFunctionDef_standard host file_path options name a body d n :
  (2 <= level options)%Z ->
  FunctionWrapper._should_instrument host options name = true ->
  FunctionWrapper.visit host file_path options
    (AsyncFunctionDef name a body d) n =
  (AsyncFunctionDef name a
     [FunctionWrapper.start_call file_path name a;
      Try (_transform_returns body) [FunctionWrapper.except_handler] [] []] d,
   S n).
Proof.
  intros Hlevel Hpolicy. simpl. unfold FunctionWrapper.visit_AsyncFunctionDef.
  rewrite Hpolicy. simpl.
  destruct (Z.eqb_spec (level options) 0); [lia|reflexivity].
Qed.

Lemma visit_wrapped_region host file_path options s n :
  is_function_def s = true ->
  (2 <= level options)%Z ->
  FunctionWrapper._should_instrument host options (def_name s) = true ->
  protected_region (fst (FunctionWrapper.visit host file_path options s n)) =
  _transform_returns (def_body s).
Proof.
  intros Hdef Hlevel Hpolicy.
  destruct s; try discriminate Hdef.
  - rewrite visit_FunctionDef_standard by assumption. reflexivity.
  - rewrite visit_AsyncFunctionDef_standard by assumption. reflexivity.
Qed.

(** C7.  In a function or coroutine wrapped at level 2 or above, every
    return statement of the body that carries a value expression [e] has
    become [return __tracer.end_function(__ctx, e)] at the same position of
    the protected region: a call of the attribute [end_function] of the
    name [__tracer], with the name [__ctx] and [e] itself as its two
    arguments.  Every bare return is still a bare return. *)
Theorem return_statements_rerouted host file_path options s n (p : position) :
  is_function_def s = true ->
  (2 <= level options)%Z ->
  FunctionWrapper._should_instrument host options (def_name s) = true ->
  let wrapped := fst (FunctionWrapper.visit host file_path options s n) in
  (forall e, stmt_at p (def_body s) = Some (Return (Some e)) ->
     stmt_at p (protected_region wrapped) =
     Some (Return
             (Some (Call (Attribute (Name "__tracer") "end_function")
                      [Name "__ctx"; e])))) /\
  (stmt_at p (def_body s) = Some (Return None) ->
     stmt_at p (protected_region wrapped) = Some (Return None)).
Proof.
  intros Hdef Hlevel Hpolicy wrapped. unfold wrapped.
  rewrite visit_wrapped_region by assumption.
  rewrite stmt_at_transform_returns.
  split; [intros e H|intros H]; rewrite H; reflexivity.
Qed.

Lemma return_statements_rerouted_witness :
  stmt_at ([], 1)
    (protected_region
       (fst (FunctionWrapper.visit demo_host "/proj/app.py" default_options
               outer_def 0))) =
  Some (Return
          (Some (Call (Attribute (Name "__tracer") "end_function")
                   [Name "__ctx"; Call (Name "inner") []]))).
Proof.
  apply (return_statements_rerouted demo_host "/proj/app.py" default_options
           outer_def 0 ([], 1)); [reflexivity|vm_compute; discriminate|
                                  reflexivity|reflexivity].
Defined.

(** C1, as the code has it.  In a function or coroutine wrapped at level 2
    or above, a value-carrying return of the body is rerouted when it sits
    in nested blocks only and also when the way down to it enters a nested
    function or coroutine definition: the pass does not stop at inner
    definitions. *)
Theorem returns_rerouted_in_blocks_and_inner_definitions
    host file_path options s n steps i e :
  is_function_def s = true ->
  (2 <= level options)%Z ->
  FunctionWrapper._should_instrument host options (def_name s) = true ->
  stmt_at (steps, i) (def_body s) = Some (Return (Some e)) ->
  let wrapped := fst (FunctionWrapper.visit host file_path options s n) in
  (enters_function_def steps (def_body s) = false ->
     stmt_at (steps, i) (protected_region wrapped) =
     Some (Return (Some (end_function_call e)))) /\
  (enters_function_def steps (def_body s) = true ->
     stmt_at (steps, i) (protected_region wrapped) =
     Some (Return (Some (end_function_call e)))).
Proof.
  intros Hdef Hlevel Hpolicy Hat wrapped. unfold wrapped.
  rewrite visit_wrapped_region by assumption.
  rewrite stmt_at_transform_returns, Hat. split; reflexivity.
Qed.

Lemma returns_rerouted_in_blocks_and_inner_definitions_witness :
  stmt_at ([(0, in_body)], 0)
    (protected_region
       (fst (FunctionWrapper.visit demo_host "/proj/app.py" default_options
               outer_def 0))) =
  Some (Return (Some (end_function_call (Constant (CInt 1))))).
Proof.
  apply (returns_rerouted_in_blocks_and_inner_definitions
           demo_host "/proj/app.py" default_options outer_def 0
           [(0, in_body)] 0 (Constant (CInt 1)));
    [reflexivity|vm_compute; discriminate|reflexivity|reflexivity|reflexivity].
Defined.

(** C1, as stated, fails: wrapping [outer] at level 2 rewrites the return of
    the function [inner] defined in its body. *)
Lemma inner_return_rewritten :
  let wrapped :=
    fst (FunctionWrapper.visit demo_host "/proj/app.py" default_options
           outer_def 0) in
  enters_function_def [(0, in_body)] (def_body outer_def) = true /\
  stmt_at ([(0, in_body)], 0) (def_body outer_def) =
    Some (Return (Some (Constant (CInt 1)))) /\
  stmt_at ([(0, in_body)], 0) (protected_region wrapped) <>
    Some (Return (Some (Constant (CInt 1)))).
Proof.
  repeat split; vm_compute; discriminate.
Qed.

(** ** The instrumentation policy *)

(** With a non-empty [functions] list the prefix list of the environment is
    never read: two hosts that agree on [TRACING_EXCLUDE_FUNCTIONS] decide
    alike. *)
Lemma include_only_ignores_prefixes host host' options name :
  functions options <> [] ->
  getenv host "TRACING_EXCLUDE_FUNCTIONS" =
  getenv host' "TRACING_EXCLUDE_FUNCTIONS" ->
  FunctionWrapper._should_instrument host options name =
  FunctionWrapper._should_instrument host' options name.
Proof.
  intros Hne Henv.
  unfold FunctionWrapper._should_instrument,
    FunctionWrapper._get_excluded_functions.
  rewrite Henv.
  rewrite (bool_decide_eq_false_2 _ Hne). reflexivity.
Qed.

(** C5.  A name listed in [functions] (includeOnly) that starts with one of
    the prefixes of [TRACING_EXCLUDE_FUNCTION_PREFIXES], and that is not in
    the exclusion list the wrapper holds (the special methods, the options'
    [exclude_functions] and [TRACING_EXCLUDE_FUNCTIONS]), is instrumented;
    the decision does not depend on the prefix list at all. *)
Theorem include_only_before_prefixes host options name prefix :
  name ∈ functions options ->
  prefix ∈ split_on ","%char
             (getenv host "TRACING_EXCLUDE_FUNCTION_PREFIXES") ->
  startswith name (strip prefix) = true ->
  name ∉ FunctionWrapper._get_excluded_functions host options ->
  FunctionWrapper._should_instrument host options name = true /\
  (forall host',
     getenv host' "TRACING_EXCLUDE_FUNCTIONS" =
     getenv host "TRACING_EXCLUDE_FUNCTIONS" ->
     FunctionWrapper._should_instrument host' options name = true).
Proof.
  intros Hin _ _ Hex.
  assert (Hne : functions options <> []).
  { intros Heq. rewrite Heq in Hin. by apply not_elem_of_nil in Hin. }
  assert (Hhere : FunctionWrapper._should_instrument host options name = true).
  { unfold FunctionWrapper._should_instrument.
    rewrite (bool_decide_eq_false_2 _ Hex), (bool_decide_eq_false_2 _ Hne).
    simpl. by apply bool_decide_eq_true_2. }
  split; [exact Hhere|].
  intros host' Henv.
  rewrite <- Hhere. by apply include_only_ignores_prefixes.
Qed.

Lemma include_only_before_prefixes_witness :
  FunctionWrapper._should_instrument demo_host only_get_value "get_value"
  = true /\
  (forall host',
     getenv host' "TRACING_EXCLUDE_FUNCTIONS" =
     getenv demo_host "TRACING_EXCLUDE_FUNCTIONS" ->
     FunctionWrapper._should_instrument host' only_get_value "get_value"
     = true).
Proof.
  apply (include_only_before_prefixes demo_host only_get_value
           "get_value" "get_").
  - vm_compute. apply list_elem_of_here.
  - vm_compute. apply list_elem_of_here.
  - reflexivity.
  - apply (bool_decide_eq_false_1 _). reflexivity.
Defined.

(** C6.  The four special methods are never instrumented, whatever the
    options and the environment say, also when [functions] lists them: the
    wrapper leaves their definitions as they are and does not count them. *)
Theorem special_methods_excluded host file_path options name a body d n :
  name ∈ FunctionWrapper.special_methods ->
  FunctionWrapper._should_instrument host options name = false /\
  FunctionWrapper.visit host file_path options (FunctionDef name a body d) n =
    (FunctionDef name a body d, n) /\
  FunctionWrapper.visit host file_path options
    (AsyncFunctionDef name a body d) n =
    (AsyncFunctionDef name a body d, n).
Proof.
  intros Hin.
  assert (H : FunctionWrapper._should_instrument host options name = false).
  { unfold FunctionWrapper._should_instrument.
    rewrite bool_decide_eq_true_2; [reflexivity|].
    unfold FunctionWrapper._get_excluded_functions.
    apply elem_of_app. by right. }
  split; [exact H|].
  simpl. unfold FunctionWrapper.visit_FunctionDef,
    FunctionWrapper.visit_AsyncFunctionDef.
  rewrite H. split; reflexivity.
Qed.

Lemma special_methods_excluded_witness :
  FunctionWrapper._should_instrument demo_host only_init "__init__" = false.
Proof.
  apply (special_methods_excluded demo_host "/proj/app.py" only_init
           "__init__" no_arguments [] [] 0).
  vm_compute. apply list_elem_of_here.
Defined.

(** ** The traversal and the count *)

(** Induction over statements, with the property known for every statement
    of every block. *)
Section StmtInduction.

Variable P : stmt -> Prop.
Variable Q : excepthandler -> Prop.

Hypothesis P_FunctionDef : forall n a b d, P (FunctionDef n a b d).
Hypothesis P_AsyncFunctionDef : forall n a b d, P (AsyncFunctionDef n a b d).
Hypothesis P_ClassDef : forall n bs b d, Forall P b -> P (ClassDef n bs b d).
Hypothesis P_Return : forall v, P (Return v).
Hypothesis P_Assign : forall t v, P (Assign t v).
Hypothesis P_Expr : forall v, P (Expr v).
Hypothesis P_Raise : forall e, P (Raise e).
Hypothesis P_If : forall t b o, Forall P b -> Forall P o -> P (If t b o).
Hypothesis P_For :
  forall t i b o, Forall P b -> Forall P o -> P (For t i b o).
Hypothesis P_While : forall t b o, Forall P b -> Forall P o -> P (While t b o).
Hypothesis P_With : forall i b, Forall P b -> P (With i b).
Hypothesis P_Try :
  forall b hs o f,
    Forall P b -> Forall Q hs -> Forall P o -> Forall P f -> P (Try b hs o f).
Hypothesis P_Simple : forall src, P (Simple src).
Hypothesis Q_ExceptHandler :
  forall t n b, Forall P b -> Q (ExceptHandler t n b).

Definition Forall_of {A : Type} (R : A -> Prop) (f : forall x, R x)
    : forall l, Forall R l :=
  fix go (l : list A) : Forall R l :=
    match l with
    | [] => @List.Forall_nil A R
    | x :: l' => @List.Forall_cons A R x l' (f x) (go l')
    end.

Fixpoint stmt_block_ind (s : stmt) : P s :=
  match s with
  | FunctionDef n a b d => P_FunctionDef n a b d
  | AsyncFunctionDef n a b d => P_AsyncFunctionDef n a b d
  | ClassDef n bs b d => P_ClassDef n bs b d (Forall_of P stmt_block_ind b)
  | Return v => P_Return v
  | Assign t v => P_Assign t v
  | Expr v => P_Expr v
  | Raise e => P_Raise e
  | If t b o =>
      P_If t b o (Forall_of P stmt_block_ind b) (Forall_of P stmt_block_ind o)
  | For t i b o =>
      P_For t i b o (Forall_of P stmt_block_ind b)
            (Forall_of P stmt_block_ind o)
  | While t b o =>
      P_While t b o (Forall_of P stmt_block_ind b)
              (Forall_of P stmt_block_ind o)
  | With i b => P_With i b (Forall_of P stmt_block_ind b)
  | Try b hs o f =>
      P_Try b hs o f (Forall_of P stmt_block_ind b)
            (Forall_of Q handler_block_ind hs)
            (Forall_of P stmt_block_ind o) (Forall_of P stmt_block_ind f)
  | Simple src => P_Simple src
  end
with handler_block_ind (h : excepthandler) : Q h :=
  match h with
  | ExceptHandler t n b => Q_ExceptHandler t n b (Forall_of P stmt_block_ind b)
  end.

End StmtInduction.

Section Count.

Variable host : Host.
Variable file_path : string.
Variable options : InstrumentOptions.

Let eligible := count_eligible host options.

Lemma count_eligible_app (l1 l2 : list string) :
  count_eligible host options (l1 ++ l2) =
  count_eligible host options l1 + count_eligible host options l2.
Proof.
  unfold count_eligible. by rewrite List.filter_app, length_app.
Qed.

(** Visiting the items of a block adds up what each item adds. *)
Lemma visit_each_count {A : Type} (visit : A -> nat -> A * nat)
    (names : A -> list string) (l : list A) :
  Forall (fun x => forall n, snd (visit x n) = n + eligible (names x)) l ->
  forall n, snd (FunctionWrapper.visit_each visit l n) = n + eligible (flat_map names l).
Proof.
  induction 1 as [|x l Hx _ IH]; intros n; simpl.
  - unfold eligible, count_eligible. simpl. lia.
  - specialize (Hx n). destruct (visit x n) as [x' n1]. simpl in Hx.
    specialize (IH n1). destruct (FunctionWrapper.visit_each visit l n1) as [l' n2].
    simpl in *. unfold eligible in *. rewrite count_eligible_app. lia.
Qed.

Lemma visit_count (s : stmt) :
  forall n,
    snd (FunctionWrapper.visit host file_path options s n) =
    n + eligible (outer_definitions s).
Proof.
  induction s using stmt_block_ind with
    (Q := fun h => forall n,
            snd (FunctionWrapper.visit_handler host file_path options h n) =
            n + eligible (outer_definitions_handler h));
    intros k; simpl;
    repeat match goal with
    | H : Forall _ ?b |- context [FunctionWrapper.visit_each _ ?b ?m] =>
        let E := fresh "E" in
        pose proof (visit_each_count _ _ _ H m) as E;
        destruct (FunctionWrapper.visit_each _ b m); simpl in E; subst
    end;
    simpl; unfold eligible in *; rewrite ?count_eligible_app;
    try (unfold count_eligible; simpl; lia).
  - unfold FunctionWrapper.visit_FunctionDef, count_eligible. simpl.
    destruct (FunctionWrapper._should_instrument host options n); simpl;
      [|lia].
    repeat match goal with |- context [if ?c then _ else _] => destruct c end;
      simpl; lia.
  - unfold FunctionWrapper.visit_AsyncFunctionDef, count_eligible. simpl.
    destruct (FunctionWrapper._should_instrument host options n); simpl;
      [|lia].
    repeat match goal with |- context [if ?c then _ else _] => destruct c end;
      simpl; lia.
Qed.

Lemma visit_Module_count (tree : module) :
  snd (FunctionWrapper.visit_Module host file_path options tree 0) =
  eligible_outer_definitions host options tree.
Proof.
  destruct tree as [body]. unfold FunctionWrapper.visit_Module.
  pose proof (visit_each_count
                (FunctionWrapper.visit host file_path options)
                outer_definitions body) as H.
  specialize (H (Forall_of _ visit_count body) 0).
  destruct (FunctionWrapper.visit_each _ body 0). simpl in *. exact H.
Qed.

End Count.

(** ** Text-mode reading and writing *)

Lemma universal_newlines_no_carriage_return (raw : string) :
  no_carriage_return (universal_newlines raw) = true.
Proof.
  remember (String.length raw) as k eqn:Hk.
  revert raw Hk. induction k as [k IH] using lt_wf_ind. intros raw Hk.
  destruct raw as [|c rest]; [reflexivity|]. simpl.
  destruct (Ascii.eqb_spec c CR) as [->|Hc].
  - destruct rest as [|c' rest'].
    + reflexivity.
    + destruct (Ascii.eqb c' LF); simpl.
      * apply (IH (String.length rest')); [simpl in Hk; lia|reflexivity].
      * change (no_carriage_return (universal_newlines (String c' rest'))
                = true).
        apply (IH (String.length (String c' rest')));
          [simpl in *; lia|reflexivity].
  - simpl. destruct (Ascii.eqb_spec c CR) as [|_]; [contradiction|]. simpl.
    apply (IH (String.length rest)); [simpl in Hk; lia|reflexivity].
Qed.



(** What text-mode writing puts on disk reads back as the text written. *)
Lemma read_back (p : platform) (text : string) :
  no_carriage_return text = true ->
  universal_newlines (translate_newlines p text) = text.
Proof.
  induction text as [|c rest IH]; [reflexivity|]. simpl.
  intros [Hc Hrest]%andb_prop.
  destruct (Ascii.eqb_spec c LF) as [->|Hlf].
  - destruct p; simpl; by rewrite IH.
  - simpl. destruct (Ascii.eqb c CR); [discriminate|]. by rewrite IH.
Qed.

Lemma read_back_universal (p : platform) (raw : string) :
  universal_newlines (translate_newlines p (universal_newlines raw)) =
  universal_newlines raw.
Proof. apply read_back, universal_newlines_no_carriage_return. Qed.

(** ** Paths *)

Lemma strip_parts_app (p base rel : path) :
  strip_parts p base = Some rel -> p = (base ++ rel)%list.
Proof.
  revert base. induction p as [|x p IH]; intros [|b base]; simpl;
    try discriminate; try (by intros [= ->]).
  destruct (String.eqb_spec b x) as [->|_]; [|discriminate].
  intros H. by rewrite (IH _ H).
Qed.

(** The snapshot of a file never is the file itself. *)
Lemma backup_path_fresh host (file_path : string) (rel : path) :
  strip_parts (Path host file_path) (cwd host) = Some rel ->
  (backup_dir (new_instrumenter host) ++ rel)%list <> Path host file_path.
Proof.
  intros H%strip_parts_app Heq. rewrite H in Heq.
  apply (f_equal length) in Heq. simpl in Heq.
  rewrite !length_app in Heq. simpl in Heq. lia.
Qed.

(** ** [instrument_file] and [uninstrument_file], step by step *)

Lemma instrument_file_unfold (host : Host) (self : PythonInstrumenter)
    (file_path : string) (options : InstrumentOptions) (st : store) :
  instrument_file host self file_path options st =
  match st !! Path host file_path with
  | None => (inr (failure_result (exn_str file_not_found) (VStr "")), st)
  | Some raw =>
      let code := universal_newlines raw in
      match strip_parts (Path host file_path) (cwd host) with
      | None =>
          (inr (failure_result (exn_str not_in_subpath) (VStr "")), st)
      | Some rel =>
          let backup_path := (backup_dir self ++ rel)%list in
          let st1 :=
            <[backup_path := translate_newlines (os host) code]> st in
          if _is_instrumented code then
            (inr (failure_result already_instrumented (VPath backup_path)),
             st1)
          else
            match ast_parse host code with
            | inl e => (inr (failure_result (exn_str e) (VStr "")), st1)
            | inr tree =>
                let visited :=
                  FunctionWrapper.visit_Module host file_path options tree 0
                in
                match to_source host (fst visited) with
                | inl e => (inr (failure_result (exn_str e) (VStr "")), st1)
                | inr emitted =>
                    let instrumented_code := _add_tracer_import emitted in
                    (inr (success_result code instrumented_code
                            (snd visited) backup_path),
                     <[Path host file_path :=
                         translate_newlines (os host) instrumented_code]> st1)
                end
            end
      end
  end.
Proof.
  unfold instrument_file, try_except, instrument_steps, _create_backup,
    open_read, open_write, relative_to, lift, mbind, mret, io_bind, io_ret.
  destruct (st !! Path host file_path) as [raw|]; [|reflexivity].
  destruct (strip_parts (Path host file_path) (cwd host)) as [rel|];
    [|reflexivity].
  simpl. destruct (_is_instrumented (universal_newlines raw)); [reflexivity|].
  destruct (ast_parse host (universal_newlines raw)) as [e|tree];
    [reflexivity|].
  destruct (FunctionWrapper.visit_Module host file_path options tree 0)
    as [new_tree k].
  simpl. destruct (to_source host new_tree) as [e|emitted]; reflexivity.
Qed.

Lemma uninstrument_file_restore_unfold (host : Host)
    (self : PythonInstrumenter) (file_path : string) (st : store) :
  uninstrument_file host self file_path true st =
  match strip_parts (Path host file_path) (cwd host) with
  | None =>
      (match print host (uninstrument_failure not_in_subpath) with
       | inl raised => inl raised
       | inr _ => inr false
       end, st)
  | Some rel =>
      match st !! (backup_dir self ++ rel)%list with
      | None => (inr false, st)
      | Some saved =>
          (inr true,
           <[Path host file_path :=
               translate_newlines (os host) (universal_newlines saved)]> st)
      end
  end.
Proof.
  unfold uninstrument_file, try_except, uninstrument_steps, _get_backup_path,
    path_exists, open_read, open_write, relative_to, lift, mbind, mret,
    io_bind, io_ret.
  destruct (strip_parts (Path host file_path) (cwd host)) as [rel|].
  - simpl. destruct (st !! (backup_dir self ++ rel)%list) as [saved|] eqn:E.
    + rewrite bool_decide_eq_true_2 by eauto. simpl. rewrite E. reflexivity.
    + rewrite bool_decide_eq_false_2; [reflexivity|]. by intros [? [=]].
  - by destruct (print host (uninstrument_failure not_in_subpath)).
Qed.

Lemma uninstrument_file_strip_unfold (host : Host)
    (self : PythonInstrumenter) (file_path : string) (st : store) :
  uninstrument_file host self file_path false st =
  match st !! Path host file_path with
  | Some raw =>
      (inr true,
       <[Path host file_path :=
           translate_newlines (os host)
             (_remove_instrumentation (universal_newlines raw))]> st)
  | None =>
      (match print host (uninstrument_failure file_not_found) with
       | inl raised => inl raised
       | inr _ => inr false
       end, st)
  end.
Proof.
  unfold uninstrument_file, try_except, uninstrument_steps, open_read,
    open_write, lift, mbind, mret, io_bind, io_ret.
  destruct (st !! Path host file_path); [reflexivity|].
  by destruct (print host (uninstrument_failure file_not_found)).
Qed.

(** ** The result dictionaries *)

Lemma failure_result_success (error : string) (backup_path : pyval) :
  failure_result error backup_path !! "success" = Some (VBool false).
Proof. unfold failure_result. by simplify_map_eq. Qed.

Lemma failure_result_error (error : string) (backup_path : pyval) :
  failure_result error backup_path !! "error" = Some (VStr error).
Proof. unfold failure_result. by simplify_map_eq. Qed.

Lemma failure_result_wrapped (error : string) (backup_path : pyval) :
  failure_result error backup_path !! "functions_wrapped" = Some (VInt 0).
Proof. unfold failure_result. by simplify_map_eq. Qed.

Lemma failure_result_backup (error : string) (backup_path : pyval) :
  failure_result error backup_path !! "backup_path" = Some backup_path.
Proof. unfold failure_result. by simplify_map_eq. Qed.

Lemma success_result_success (original_code instrumented_code : string)
    (functions_wrapped : nat) (backup_path : path) :
  success_result original_code instrumented_code functions_wrapped
    backup_path !! "success" = Some (VBool true).
Proof. unfold success_result. by simplify_map_eq. Qed.

Lemma success_result_wrapped (original_code instrumented_code : string)
    (functions_wrapped : nat) (backup_path : path) :
  success_result original_code instrumented_code functions_wrapped
    backup_path !! "functions_wrapped" =
  Some (VInt (Z.of_nat functions_wrapped)).
Proof. unfold success_result. by simplify_map_eq. Qed.

Lemma failure_result_no_code (error : string) (backup_path : pyval) :
  failure_result error backup_path !! "original_code" = None /\
  failure_result error backup_path !! "instrumented_code" = None.
Proof. unfold failure_result. split; by simplify_map_eq. Qed.


#[global] Opaque failure_result success_result.

(** The ways a run of [instrument_file] can go, one goal for each. *)
Ltac run_cases host self file_path options st :=
  let raw := fresh "raw" in
  let rel := fresh "rel" in
  let e := fresh "e" in
  let tree := fresh "tree" in
  let emitted := fresh "emitted" in
  rewrite (instrument_file_unfold host self file_path options st) in *;
  destruct (st !! Path host file_path) as [raw|] eqn:Hread;
  [ destruct (strip_parts (Path host file_path) (cwd host))
      as [rel|] eqn:Hrel;
    [ cbv zeta in *;
      destruct (_is_instrumented (universal_newlines raw)) eqn:Hguard;
      [ | destruct (ast_parse host (universal_newlines raw))
            as [e|tree] eqn:Hparse;
          [ | destruct (to_source host
                 (fst (FunctionWrapper.visit_Module host file_path options
                         tree 0))) as [e|emitted] eqn:Hemit ] ]
    | ]
  | ].

Ltac failed_result :=
  match goal with
  | H : failure_result ?m ?b !! "success" = Some (VBool true) |- _ =>
      rewrite (failure_result_success m b) in H; discriminate H
  | H : success_result ?o ?i ?k ?b !! "success" = Some (VBool false) |- _ =>
      rewrite (success_result_success o i k b) in H; discriminate H
  end.

(** ** The wrap count *)

(** C2, as the code has it.  When [instrument_file] succeeds, the file was
    read and parsed, and [functions_wrapped] is the number of definitions
    the policy admits among those that are not nested in the body of another
    function or coroutine definition; the traversal does not enter the body
    of a definition. *)
Theorem wrap_count_outer_definitions (host : Host)
    (self : PythonInstrumenter) (file_path : string)
    (options : InstrumentOptions) (st : store) :
  let run := instrument_file host self file_path options st in
  result_of run !! "success" = Some (VBool true) ->
  exists raw tree,
    st !! Path host file_path = Some raw /\
    ast_parse host (universal_newlines raw) = inr tree /\
    result_of run !! "functions_wrapped" =
      Some (VInt (Z.of_nat (eligible_outer_definitions host options tree))).
Proof.
  intros run Hok. subst run.
  run_cases host self file_path options st;
    unfold result_of in *; cbn [fst snd] in *; try failed_result.
  eexists _, _. repeat split; [eassumption|].
  rewrite <- visit_Module_count with (file_path := file_path).
  apply success_result_wrapped.
Qed.

Lemma wrap_count_outer_definitions_witness :
  let run := instrument_file demo_host demo_self "/proj/app.py"
               default_options demo_store in
  exists raw tree,
    demo_store !! Path demo_host "/proj/app.py" = Some raw /\
    ast_parse demo_host (universal_newlines raw) = inr tree /\
    result_of run !! "functions_wrapped" =
      Some (VInt (Z.of_nat
                    (eligible_outer_definitions demo_host default_options
                       tree))).
Proof.
  apply (wrap_count_outer_definitions demo_host demo_self "/proj/app.py"
           default_options demo_store).
  vm_compute. reflexivity.
Defined.

(** C2, as stated, fails: [outer] and the [inner] it defines are both
    admitted by the policy and the file is instrumented with success, yet
    one function is counted. *)
Lemma nested_definition_not_counted :
  let run := instrument_file demo_host demo_self "/proj/app.py"
               default_options demo_store in
  demo_store !! Path demo_host "/proj/app.py" = Some nested_source /\
  ast_parse demo_host (universal_newlines nested_source) =
    inr nested_tree /\
  eligible_definitions demo_host default_options nested_tree = 2 /\
  result_of run !! "success" = Some (VBool true) /\
  result_of run !! "functions_wrapped" = Some (VInt 1).
Proof. repeat split; vm_compute; reflexivity. Qed.

(** ** Snapshot and restore *)

(** Once the file was read and its snapshot written, the store holds the
    snapshot whatever the rest of the run did. *)
Lemma snapshot_on_disk (host : Host) (file_path : string)
    (options : InstrumentOptions) (st : store) (raw : string) (rel : path) :
  st !! Path host file_path = Some raw ->
  strip_parts (Path host file_path) (cwd host) = Some rel ->
  snd (instrument_file host (new_instrumenter host) file_path options st)
    !! (backup_dir (new_instrumenter host) ++ rel)%list =
  Some (translate_newlines (os host) (universal_newlines raw)).
Proof.
  intros Hraw Hpath.
  pose proof (backup_path_fresh host file_path rel Hpath) as Hfresh.
  rewrite instrument_file_unfold, Hraw, Hpath. cbv zeta.
  destruct (_is_instrumented (universal_newlines raw));
    [apply lookup_insert_eq|].
  destruct (ast_parse host (universal_newlines raw)) as [e|tree];
    [apply lookup_insert_eq|].
  destruct (to_source host _) as [e|emitted]; simpl;
    rewrite ?(lookup_insert_ne _ _ _ _ (not_eq_sym Hfresh));
    apply lookup_insert_eq.
Qed.




(** ** The already-instrumented guard *)




(** ** Failures *)



(** The overwrite happens only after emission succeeded: a run that left
    the file different is a run that reported success. *)
Lemma file_changed_only_on_success (host : Host) (file_path : string)
    (options : InstrumentOptions) (st : store) :
  let run :=
    instrument_file host (new_instrumenter host) file_path options st in
  snd run !! Path host file_path <> st !! Path host file_path ->
  result_of run !! "success" = Some (VBool true).
Proof.
  intros run Hdiff. subst run.
  run_cases host (new_instrumenter host) file_path options st;
    unfold result_of; cbn [fst snd] in *;
    try (exfalso; apply Hdiff;
         rewrite ?lookup_insert_ne by (by apply backup_path_fresh);
         first [reflexivity | exact Hread | symmetry; exact Hread]).
  apply success_result_success.
Qed.





(** C10.  A run that fails otherwise than at the already-instrumented guard
    returns the empty string as [backup_path], also when the file was read
    and its snapshot is on disk by then. *)
Theorem failure_hides_backup_path (host : Host) (file_path : string)
    (options : InstrumentOptions) (st : store) :
  let run :=
    instrument_file host (new_instrumenter host) file_path options st in
  result_of run !! "success" = Some (VBool false) ->
  guard_fires host file_path st = false ->
  result_of run !! "backup_path" = Some (VStr "") /\
  (forall raw rel,
     st !! Path host file_path = Some raw ->
     strip_parts (Path host file_path) (cwd host) = Some rel ->
     snd run !! (backup_dir (new_instrumenter host) ++ rel)%list =
     Some (translate_newlines (os host) (universal_newlines raw))).
Proof.
  intros run Hfail Hno. split.
  - subst run. unfold guard_fires in Hno.
    run_cases host (new_instrumenter host) file_path options st;
      unfold result_of in *; cbn [fst snd] in *;
      try apply failure_result_backup;
      try discriminate Hno.
    failed_result.
  - intros raw rel Hraw Hpath. by apply snapshot_on_disk.
Qed.

Lemma failure_hides_backup_path_witness :
  let run :=
    instrument_file demo_host (new_instrumenter demo_host) "/proj/broken.py"
      default_options demo_store in
  result_of run !! "backup_path" = Some (VStr "") /\
  (forall raw rel,
     demo_store !! Path demo_host "/proj/broken.py" = Some raw ->
     strip_parts (Path demo_host "/proj/broken.py") (cwd demo_host) =
       Some rel ->
     snd run !! (backup_dir (new_instrumenter demo_host) ++ rel)%list =
     Some (translate_newlines (os demo_host) (universal_newlines raw))).
Proof.
  apply (failure_hides_backup_path demo_host "/proj/broken.py"
           default_options demo_store);
    vm_compute; reflexivity.
Defined.

(** * Further properties of the adapter *)

(** ** Wrapping levels *)

(** X1.  At level 0 an admitted definition is returned as it is, and still
    counted in [functions_wrapped]. *)
Theorem level_zero_counted_not_wrapped host file_path options s n :
  is_function_def s = true ->
  level options = 0%Z ->
  FunctionWrapper._should_instrument host options (def_name s) = true ->
  FunctionWrapper.visit host file_path options s n = (s, S n).
Proof.
  intros Hdef Hlevel Hpolicy.
  destruct s; try discriminate Hdef; simpl in *;
    unfold FunctionWrapper.visit_FunctionDef,
      FunctionWrapper.visit_AsyncFunctionDef;
    rewrite Hpolicy, Hlevel; reflexivity.
Qed.

Lemma level_zero_counted_not_wrapped_witness :
  FunctionWrapper.visit demo_host "/proj/app.py"
    (set_level 0 default_options) outer_def 0 = (outer_def, 1).
Proof.
  apply (level_zero_counted_not_wrapped demo_host "/proj/app.py"
           (set_level 0 default_options) outer_def 0); reflexivity.
Defined.

(** X2.  At level 1 the body of an admitted function gets the enter call in
    front and the exit call behind, and every statement of the body stays
    what it was, one place further: returns are not rerouted and nothing
    guards the exit call. *)
Theorem level_one_brackets_body host file_path options name a body d n :
  level options = 1%Z ->
  FunctionWrapper._should_instrument host options name = true ->
  exists body',
    FunctionWrapper.visit host file_path options (FunctionDef name a body d) n
      = (FunctionDef name a body' d, S n) /\
    length body' = S (S (length body)) /\
    body' !! 0 =
      Some (Expr (FunctionWrapper.tracer_call "enter"
                    [Constant (CStr name); Constant (CStr file_path)])) /\
    body' !! S (length body) =
      Some (Expr (FunctionWrapper.tracer_call "exit"
                    [Constant (CStr name)])) /\
    (forall i s, body !! i = Some s -> body' !! S i = Some s).
Proof.
  intros Hlevel Hpolicy.
  exists (FunctionWrapper._wrap_minimal file_path name body).
  split; [|split; [|split; [|split]]].
  - simpl. unfold FunctionWrapper.visit_FunctionDef.
    rewrite Hpolicy, Hlevel. reflexivity.
  - unfold FunctionWrapper._wrap_minimal. simpl.
    rewrite length_app. simpl. lia.
  - reflexivity.
  - unfold FunctionWrapper._wrap_minimal. simpl.
    rewrite lookup_app_r by lia. by rewrite Nat.sub_diag.
  - intros i s Hi. unfold FunctionWrapper._wrap_minimal. simpl.
    by apply lookup_app_l_Some.
Qed.

Lemma level_one_brackets_body_witness :
  exists body',
    FunctionWrapper.visit demo_host "/proj/app.py"
      (set_level 1 default_options)
      (FunctionDef "outer" no_arguments (def_body outer_def) []) 0
      = (FunctionDef "outer" no_arguments body' [], 1) /\
    length body' = S (S (length (def_body outer_def))) /\
    body' !! 0 =
      Some (Expr (FunctionWrapper.tracer_call "enter"
                    [Constant (CStr "outer");
                     Constant (CStr "/proj/app.py")])) /\
    body' !! S (length (def_body outer_def)) =
      Some (Expr (FunctionWrapper.tracer_call "exit"
                    [Constant (CStr "outer")])) /\
    (forall i s, def_body outer_def !! i = Some s -> body' !! S i = Some s).
Proof.
  apply (level_one_brackets_body demo_host "/proj/app.py"
           (set_level 1 default_options) "outer" no_arguments
           (def_body outer_def) [] 0); reflexivity.
Defined.

(** The policy does not look at the level. *)
Lemma should_instrument_set_level host options l name :
  FunctionWrapper._should_instrument host (set_level l options) name =
  FunctionWrapper._should_instrument host options name.
Proof. reflexivity. Qed.

(** X3.  A coroutine admitted by the policy gets, at every level other than
    0 (level 1 and negative levels included), the statements a function of
    the same name, parameters and body gets at level 2. *)
Theorem coroutine_wrapped_as_level_two host file_path options name a body d n :
  level options <> 0%Z ->
  FunctionWrapper._should_instrument host options name = true ->
  def_body
    (fst (FunctionWrapper.visit host file_path options
            (AsyncFunctionDef name a body d) n)) =
  def_body
    (fst (FunctionWrapper.visit host file_path (set_level 2 options)
            (FunctionDef name a body d) n)) /\
  snd (FunctionWrapper.visit host file_path options
         (AsyncFunctionDef name a body d) n) = S n.
Proof.
  intros Hlevel Hpolicy. simpl.
  unfold FunctionWrapper.visit_AsyncFunctionDef,
    FunctionWrapper.visit_FunctionDef.
  rewrite should_instrument_set_level, Hpolicy. simpl.
  destruct (Z.eqb_spec (level options) 0); [contradiction|].
  split; reflexivity.
Qed.

Lemma coroutine_wrapped_as_level_two_witness :
  def_body
    (fst (FunctionWrapper.visit demo_host "/proj/app.py"
            (set_level 1 default_options)
            (AsyncFunctionDef "fetch" no_arguments
               [Return (Some (Name "x"))] []) 0)) =
  def_body
    (fst (FunctionWrapper.visit demo_host "/proj/app.py"
            (set_level 2 (set_level 1 default_options))
            (FunctionDef "fetch" no_arguments
               [Return (Some (Name "x"))] []) 0)) /\
  snd (FunctionWrapper.visit demo_host "/proj/app.py"
         (set_level 1 default_options)
         (AsyncFunctionDef "fetch" no_arguments
            [Return (Some (Name "x"))] []) 0) = 1.
Proof.
  apply (coroutine_wrapped_as_level_two demo_host "/proj/app.py"
           (set_level 1 default_options) "fetch" no_arguments
           [Return (Some (Name "x"))] [] 0);
    [vm_compute; discriminate|reflexivity].
Defined.

(** X4.  Every level other than 0, 1 and 2, negative ones included, wraps a
    function exactly as level 2 does. *)
Theorem other_levels_as_level_two host file_path options name a body d n :
  level options <> 0%Z -> level options <> 1%Z ->
  FunctionWrapper.visit host file_path options (FunctionDef name a body d) n =
  FunctionWrapper.visit host file_path (set_level 2 options)
    (FunctionDef name a body d) n.
Proof.
  intros H0 H1. simpl. unfold FunctionWrapper.visit_FunctionDef.
  rewrite should_instrument_set_level.
  destruct (FunctionWrapper._should_instrument host options name);
    [|reflexivity].
  simpl.
  destruct (Z.eqb_spec (level options) 0); [contradiction|].
  destruct (Z.eqb_spec (level options) 1); [contradiction|].
  destruct (Z.eqb_spec (level options) 2); reflexivity.
Qed.

Lemma other_levels_as_level_two_witness :
  FunctionWrapper.visit demo_host "/proj/app.py"
    (set_level (-1) default_options)
    (FunctionDef "outer" no_arguments (def_body outer_def) []) 0 =
  FunctionWrapper.visit demo_host "/proj/app.py"
    (set_level 2 (set_level (-1) default_options))
    (FunctionDef "outer" no_arguments (def_body outer_def) []) 0.
Proof.
  apply (other_levels_as_level_two demo_host "/proj/app.py"
           (set_level (-1) default_options) "outer" no_arguments
           (def_body outer_def) [] 0); vm_compute; discriminate.
Defined.

(** X5.  The parameter dictionary has one entry for each plain positional
    parameter, in order, the name as key and a reference to the name as
    value; positional-only, keyword-only and variadic parameters are not
    in it. *)
Theorem params_dict_plain_parameters (a : arguments) :
  exists keys values,
    FunctionWrapper._create_params_dict a = Dict keys values /\
    length keys = length (args a) /\
    length values = length (args a) /\
    (forall i k v,
       keys !! i = Some k -> values !! i = Some v ->
       exists name,
         args a !! i = Some name /\ k = Constant (CStr name) /\
         v = Name name) /\
    FunctionWrapper._create_params_dict a =
    FunctionWrapper._create_params_dict
      (mk_arguments [] (args a) None [] None).
Proof.
  eexists _, _. split; [reflexivity|].
  split; [apply length_map|]. split; [apply length_map|].
  split; [|reflexivity].
  intros i k v Hk Hv. rewrite lookup_map in Hk, Hv.
  destruct (args a !! i) as [name|]; [|discriminate].
  injection Hk as <-. injection Hv as <-. by exists name.
Qed.

(** ** More of the policy *)

Lemma startswith_empty (s : string) : startswith s EmptyString = true.
Proof. unfold startswith. by destruct s. Qed.

(** X6.  With an empty [functions] list, a name that starts with one of the
    pieces of [TRACING_EXCLUDE_FUNCTION_PREFIXES] (each piece stripped of
    surrounding whitespace) is not instrumented.  A piece that is empty
    after stripping, as a trailing comma leaves one, is a prefix of every
    name: then no function at all is instrumented. *)
Theorem prefix_rule_excludes host options name prefix :
  functions options = [] ->
  prefix ∈ split_on ","%char
             (getenv host "TRACING_EXCLUDE_FUNCTION_PREFIXES") ->
  getenv host "TRACING_EXCLUDE_FUNCTION_PREFIXES" <> EmptyString ->
  startswith name (strip prefix) = true ->
  FunctionWrapper._should_instrument host options name = false /\
  (strip prefix = EmptyString ->
   forall other,
     FunctionWrapper._should_instrument host options other = false).
Proof.
  intros Hnone Hin Henv Hstarts.
  assert (Hrule : forall other,
             startswith other (strip prefix) = true ->
             FunctionWrapper._should_instrument host options other = false).
  { intros other Hother. unfold FunctionWrapper._should_instrument.
    destruct (bool_decide _); [reflexivity|].
    rewrite Hnone. simpl.
    destruct (getenv host "TRACING_EXCLUDE_FUNCTION_PREFIXES") as [|c env]
      eqn:E; [contradiction|].
    simpl nonempty. cbv iota. rewrite <- E.
    assert (FunctionWrapper.matches_excluded_prefix
              (getenv host "TRACING_EXCLUDE_FUNCTION_PREFIXES") other = true)
      as ->; [|reflexivity].
    unfold FunctionWrapper.matches_excluded_prefix.
    apply existsb_exists. exists prefix. split; [|exact Hother].
    apply list_elem_of_In. by rewrite E. }
  split; [by apply Hrule|].
  intros Hempty other. apply Hrule. rewrite Hempty. apply startswith_empty.
Qed.

Lemma prefix_rule_excludes_witness :
  FunctionWrapper._should_instrument (host_with_env trailing_comma_env)
    default_options "get_value" = false /\
  (strip EmptyString = EmptyString ->
   forall other,
     FunctionWrapper._should_instrument (host_with_env trailing_comma_env)
       default_options other = false).
Proof.
  apply (prefix_rule_excludes (host_with_env trailing_comma_env)
           default_options "get_value" EmptyString).
  - reflexivity.
  - vm_compute. apply list_elem_of_further, list_elem_of_here.
  - vm_compute. discriminate.
  - reflexivity.
Defined.

(** X7.  A name in the options' [exclude_functions], or among the pieces of
    [TRACING_EXCLUDE_FUNCTIONS] stripped of surrounding whitespace, is not
    instrumented, also when [functions] lists it. *)
Theorem excluded_names_before_include_only host options name :
  name ∈ exclude_functions options \/
  (getenv host "TRACING_EXCLUDE_FUNCTIONS" <> EmptyString /\
   name ∈ map strip
            (split_on ","%char (getenv host "TRACING_EXCLUDE_FUNCTIONS"))) ->
  FunctionWrapper._should_instrument host options name = false.
Proof.
  intros H. unfold FunctionWrapper._should_instrument.
  rewrite bool_decide_eq_true_2; [reflexivity|].
  unfold FunctionWrapper._get_excluded_functions.
  apply elem_of_app. left.
  destruct H as [H|[Henv H]].
  - destruct (nonempty _); [apply elem_of_app; by left|exact H].
  - destruct (getenv host "TRACING_EXCLUDE_FUNCTIONS") as [|c env] eqn:E;
      [contradiction|].
    simpl nonempty. cbv iota. apply elem_of_app. by right.
Qed.

Lemma excluded_names_before_include_only_witness :
  FunctionWrapper._should_instrument demo_host only_main "main" = false.
Proof.
  apply (excluded_names_before_include_only demo_host only_main "main").
  right. split; [vm_compute; discriminate|].
  vm_compute. apply list_elem_of_here.
Defined.

(** X8.  With the default options and neither environment variable set,
    the functions instrumented are exactly those that are not one of the
    four special methods. *)
Theorem default_policy host options name :
  getenv host "TRACING_EXCLUDE_FUNCTIONS" = EmptyString ->
  getenv host "TRACING_EXCLUDE_FUNCTION_PREFIXES" = EmptyString ->
  functions options = [] ->
  exclude_functions options = [] ->
  FunctionWrapper._should_instrument host options name =
  negb (bool_decide (name ∈ FunctionWrapper.special_methods)).
Proof.
  intros H1 H2 H3 H4.
  unfold FunctionWrapper._should_instrument,
    FunctionWrapper._get_excluded_functions.
  rewrite H1, H2, H3, H4. simpl.
  by destruct (bool_decide _).
Qed.

Lemma default_policy_witness :
  FunctionWrapper._should_instrument (host_with_env empty_env)
    default_options "__repr__" =
  negb (bool_decide ("__repr__" ∈ FunctionWrapper.special_methods)).
Proof.
  apply (default_policy (host_with_env empty_env) default_options
           "__repr__"); reflexivity.
Defined.

(** ** Running the instrumenter twice *)

Lemma prefix_app (n a b : string) :
  String.prefix n a = true -> String.prefix n (a ++ b) = true.
Proof.
  revert a. induction n as [|c n IH]; intros a.
  - intros _. by destruct (a ++ b).
  - destruct a as [|c' a]; simpl; [discriminate|].
    destruct (Ascii.ascii_dec c c'); [apply IH|discriminate].
Qed.

Lemma contains_app_l (a b needle : string) :
  contains a needle = true -> contains (a ++ b) needle = true.
Proof.
  induction a as [|c a IH]; simpl.
  - rewrite orb_false_r. intros H. destruct needle; [|discriminate].
    by destruct b.
  - intros [H|H]%orb_prop; apply orb_true_iff.
    + left. exact (prefix_app needle (String c a) b H).
    + right. by apply IH.
Qed.

(** A line without newline characters goes through text-mode writing and
    reading as it is. *)
Lemma translate_newlines_line (p : platform) (line rest : string) :
  no_newline line = true ->
  translate_newlines p (line ++ rest) = line ++ translate_newlines p rest.
Proof.
  induction line as [|c line IH]; [reflexivity|]. simpl.
  intros [[_ Hlf]%andb_prop Hline]%andb_prop.
  destruct (Ascii.eqb c LF); [discriminate|]. by rewrite IH.
Qed.

Lemma universal_newlines_line (line rest : string) :
  no_newline line = true ->
  universal_newlines (line ++ rest) = line ++ universal_newlines rest.
Proof.
  induction line as [|c line IH]; [reflexivity|].
  intros [[Hcr _]%andb_prop Hline]%andb_prop.
  change (String c line ++ rest) with (String c (line ++ rest)).
  simpl. destruct (Ascii.eqb c CR); [discriminate|]. by rewrite IH.
Qed.

Lemma string_app_assoc (a b c : string) : (a ++ b) ++ c = a ++ (b ++ c).
Proof.
  induction a as [|x a IH]; [reflexivity|].
  change (String x ((a ++ b) ++ c) = String x (a ++ (b ++ c))).
  by rewrite IH.
Qed.

(** What a successful run wrote is recognised as instrumented when it is
    read again. *)
Lemma instrumented_text_detected (p : platform) (emitted : string) :
  _is_instrumented
    (universal_newlines
       (translate_newlines p (_add_tracer_import emitted))) = true.
Proof.
  unfold _add_tracer_import.
  change import_statement
    with (import_line ++ String LF (String LF EmptyString)).
  rewrite string_app_assoc.
  rewrite translate_newlines_line by reflexivity.
  rewrite universal_newlines_line by reflexivity.
  unfold _is_instrumented. apply orb_true_iff. left.
  apply contains_app_l. reflexivity.
Qed.

(** The shape of a successful run. *)
Lemma success_inversion (host : Host) (self : PythonInstrumenter)
    (file_path : string) (options : InstrumentOptions) (st : store) :
  result_of (instrument_file host self file_path options st) !! "success" =
    Some (VBool true) ->
  exists raw rel tree emitted,
    st !! Path host file_path = Some raw /\
    strip_parts (Path host file_path) (cwd host) = Some rel /\
    _is_instrumented (universal_newlines raw) = false /\
    ast_parse host (universal_newlines raw) = inr tree /\
    to_source host
      (fst (FunctionWrapper.visit_Module host file_path options tree 0)) =
      inr emitted /\
    instrument_file host self file_path options st =
    (inr (success_result (universal_newlines raw)
            (_add_tracer_import emitted)
            (snd (FunctionWrapper.visit_Module host file_path options
                    tree 0))
            (backup_dir self ++ rel)%list),
     <[Path host file_path :=
         translate_newlines (os host) (_add_tracer_import emitted)]>
       (<[(backup_dir self ++ rel)%list :=
            translate_newlines (os host) (universal_newlines raw)]> st)).
Proof.
  intros Hok.
  run_cases host self file_path options st;
    unfold result_of in *; cbn [fst snd] in *; try failed_result.
  eexists _, _, _, _. repeat split; eassumption || reflexivity.
Qed.

(** A second run after a successful one: it reads what the first wrote,
    snapshots that, and stops at the guard. *)
Lemma second_run (host : Host) (file_path : string)
    (options options' : InstrumentOptions) (st : store) :
  let self := new_instrumenter host in
  let run1 := instrument_file host self file_path options st in
  result_of run1 !! "success" = Some (VBool true) ->
  exists rel emitted,
    let written :=
      translate_newlines (os host) (_add_tracer_import emitted) in
    strip_parts (Path host file_path) (cwd host) = Some rel /\
    snd run1 !! Path host file_path = Some written /\
    instrument_file host self file_path options' (snd run1) =
    (inr (failure_result already_instrumented
            (VPath (backup_dir self ++ rel)%list)),
     <[(backup_dir self ++ rel)%list :=
         translate_newlines (os host) (universal_newlines written)]>
       (snd run1)).
Proof.
  intros self run1 Hok. subst self run1.
  destruct (success_inversion _ _ _ _ _ Hok)
    as (raw & rel & tree & emitted & Hraw & Hrel & _ & _ & _ & Hrun).
  exists rel, emitted. cbv zeta. rewrite Hrun. cbn [snd].
  split; [exact Hrel|]. split; [apply lookup_insert_eq|].
  rewrite instrument_file_unfold, lookup_insert_eq, Hrel. cbv zeta.
  by rewrite instrumented_text_detected.
Qed.

(** X9.  After a successful run, running [instrument_file] again on the
    same file (with any options) fails at the already-instrumented guard
    with [functions_wrapped = 0] and leaves the instrumented file as it
    is. *)
Theorem second_run_rejected (host : Host) (file_path : string)
    (options options' : InstrumentOptions) (st : store) :
  let self := new_instrumenter host in
  let run1 := instrument_file host self file_path options st in
  let run2 := instrument_file host self file_path options' (snd run1) in
  result_of run1 !! "success" = Some (VBool true) ->
  result_of run2 !! "success" = Some (VBool false) /\
  result_of run2 !! "error" = Some (VStr already_instrumented) /\
  result_of run2 !! "functions_wrapped" = Some (VInt 0) /\
  snd run2 !! Path host file_path = snd run1 !! Path host file_path.
Proof.
  intros self run1 run2 Hok.
  destruct (second_run host file_path options options' st Hok)
    as (rel & emitted & Hrel & Hfile & Hrun).
  subst run2. fold self run1 in Hrun. rewrite Hrun.
  unfold result_of. cbn [fst snd].
  split; [apply failure_result_success|].
  split; [apply failure_result_error|].
  split; [apply failure_result_wrapped|].
  rewrite lookup_insert_ne; [reflexivity|].
  by apply backup_path_fresh.
Qed.

Lemma second_run_rejected_witness :
  let self := new_instrumenter demo_host in
  let run1 := instrument_file demo_host self "/proj/app.py"
                default_options demo_store in
  let run2 := instrument_file demo_host self "/proj/app.py"
                default_options (snd run1) in
  result_of run2 !! "success" = Some (VBool false) /\
  result_of run2 !! "error" = Some (VStr already_instrumented) /\
  result_of run2 !! "functions_wrapped" = Some (VInt 0) /\
  snd run2 !! Path demo_host "/proj/app.py" =
    snd run1 !! Path demo_host "/proj/app.py".
Proof.
  apply (second_run_rejected demo_host "/proj/app.py" default_options
           default_options demo_store).
  vm_compute. reflexivity.
Defined.

(** X10.  That second run has overwritten the snapshot with the
    instrumented text: a restore after it succeeds and leaves a file that
    still is instrumented, not the original. *)
Theorem second_run_overwrites_snapshot (host : Host) (file_path : string)
    (options options' : InstrumentOptions) (st : store) :
  let self := new_instrumenter host in
  let run1 := instrument_file host self file_path options st in
  let run2 := instrument_file host self file_path options' (snd run1) in
  let back := uninstrument_file host self file_path true (snd run2) in
  result_of run1 !! "success" = Some (VBool true) ->
  exists rel saved restored,
    strip_parts (Path host file_path) (cwd host) = Some rel /\
    snd run2 !! (backup_dir self ++ rel)%list = Some saved /\
    _is_instrumented (universal_newlines saved) = true /\
    fst back = inr true /\
    snd back !! Path host file_path = Some restored /\
    _is_instrumented (universal_newlines restored) = true.
Proof.
  intros self run1 run2 back Hok.
  destruct (second_run host file_path options options' st Hok)
    as (rel & emitted & Hrel & Hfile & Hrun).
  fold self run1 in Hrun, Hfile. cbv zeta in Hrun, Hfile.
  pose proof (instrumented_text_detected (os host) emitted) as Hdet.
  remember (translate_newlines (os host) (_add_tracer_import emitted))
    as written eqn:Hw.
  clear Hw.
  pose proof (read_back_universal (os host) written) as Hback.
  remember (translate_newlines (os host) (universal_newlines written))
    as saved eqn:Hs.
  clear Hs.
  assert (Hsaved : snd run2 !! (backup_dir self ++ rel)%list = Some saved).
  { subst run2. rewrite Hrun. apply lookup_insert_eq. }
  exists rel, saved,
    (translate_newlines (os host) (universal_newlines saved)).
  split; [exact Hrel|]. split; [exact Hsaved|].
  split; [by rewrite Hback|].
  subst back. rewrite uninstrument_file_restore_unfold, Hrel.
  fold self. rewrite Hsaved. cbn [fst snd].
  split; [reflexivity|]. split; [apply lookup_insert_eq|].
  rewrite (read_back_universal (os host) saved). by rewrite Hback.
Qed.

Lemma second_run_overwrites_snapshot_witness :
  let self := new_instrumenter demo_host in
  let run1 := instrument_file demo_host self "/proj/app.py"
                default_options demo_store in
  let run2 := instrument_file demo_host self "/proj/app.py"
                default_options (snd run1) in
  let back := uninstrument_file demo_host self "/proj/app.py" true
                (snd run2) in
  exists rel saved restored,
    strip_parts (Path demo_host "/proj/app.py") (cwd demo_host) =
      Some rel /\
    snd run2 !! (backup_dir self ++ rel)%list = Some saved /\
    _is_instrumented (universal_newlines saved) = true /\
    fst back = inr true /\
    snd back !! Path demo_host "/proj/app.py" = Some restored /\
    _is_instrumented (universal_newlines restored) = true.
Proof.
  apply (second_run_overwrites_snapshot demo_host "/proj/app.py"
           default_options default_options demo_store).
  vm_compute. reflexivity.
Defined.

(** ** What a run writes *)

(** X11.  When the file cannot be read, or lies outside the working
    directory, [instrument_file] fails with [functions_wrapped = 0], an
    empty [backup_path] and no code in the result, and writes nothing at
    all: the store is the one it started from. *)
Theorem nothing_written_without_snapshot (host : Host)
    (self : PythonInstrumenter) (file_path : string)
    (options : InstrumentOptions) (st : store) :
  st !! Path host file_path = None \/
  strip_parts (Path host file_path) (cwd host) = None ->
  let run := instrument_file host self file_path options st in
  result_of run !! "success" = Some (VBool false) /\
  result_of run !! "functions_wrapped" = Some (VInt 0) /\
  result_of run !! "backup_path" = Some (VStr "") /\
  result_of run !! "original_code" = None /\
  result_of run !! "instrumented_code" = None /\
  snd run = st.
Proof.
  intros Hno run. subst run.
  assert (Hrun : exists e,
             instrument_file host self file_path options st =
             (inr (failure_result (exn_str e) (VStr "")), st)).
  { rewrite instrument_file_unfold.
    destruct (st !! Path host file_path) as [raw|]; [|by eexists].
    destruct Hno as [Hno|Hno]; [discriminate|]. rewrite Hno. by eexists. }
  destruct Hrun as [e ->]. unfold result_of. cbn [fst snd].
  split; [apply failure_result_success|].
  split; [apply failure_result_wrapped|].
  split; [apply failure_result_backup|].
  split; [apply failure_result_no_code|].
  split; [apply failure_result_no_code|reflexivity].
Qed.

Lemma nothing_written_without_snapshot_witness :
  let run := instrument_file demo_host demo_self "/proj/missing.py"
               default_options demo_store in
  result_of run !! "success" = Some (VBool false) /\
  result_of run !! "functions_wrapped" = Some (VInt 0) /\
  result_of run !! "backup_path" = Some (VStr "") /\
  result_of run !! "original_code" = None /\
  result_of run !! "instrumented_code" = None /\
  snd run = demo_store.
Proof.
  apply (nothing_written_without_snapshot demo_host demo_self
           "/proj/missing.py" default_options demo_store).
  left. vm_compute. reflexivity.
Defined.

(** X12.  Whatever the outcome, a run of [instrument_file] touches no path
    other than the file and its snapshot. *)
Theorem run_writes_file_and_snapshot_only (host : Host)
    (self : PythonInstrumenter) (file_path : string)
    (options : InstrumentOptions) (st : store) (p : path) :
  p <> Path host file_path ->
  (forall rel,
     strip_parts (Path host file_path) (cwd host) = Some rel ->
     p <> (backup_dir self ++ rel)%list) ->
  snd (instrument_file host self file_path options st) !! p = st !! p.
Proof.
  intros Hfile Hsnap.
  run_cases host self file_path options st; cbn [snd];
    try reflexivity;
    specialize (Hsnap _ eq_refl);
    rewrite ?(lookup_insert_ne _ _ _ _ (not_eq_sym Hfile));
    by rewrite lookup_insert_ne.
Qed.

Lemma run_writes_file_and_snapshot_only_witness :
  snd (instrument_file demo_host demo_self "/proj/app.py" default_options
         demo_store) !! Path demo_host "/proj/crlf.py" =
  demo_store !! Path demo_host "/proj/crlf.py".
Proof.
  apply (run_writes_file_and_snapshot_only demo_host demo_self
           "/proj/app.py" default_options demo_store).
  - vm_compute. discriminate.
  - intros rel Hrel. vm_compute in Hrel. injection Hrel as <-.
    vm_compute. discriminate.
Defined.



Lemma strip_parts_under (base rel : path) :
  strip_parts (base ++ rel)%list base = Some rel.
Proof.
  induction base as [|x l IH]; simpl.
  - by destruct rel.
  - by rewrite String.eqb_refl.
Qed.

(** X14.  The snapshots of two files do not collide.  Take two paths below
    the working directory, spelled without [..], whose parts differ (the
    store takes a file for its parts, and without [..] different parts are
    different files).  [_create_backup] for the one and then for the other
    returns two different paths, each the backup root followed by the
    file's parts below the working directory; after the second call each
    snapshot holds the text given for its own file, and
    [_get_backup_path] answers each file with the path of its own
    snapshot. *)
Theorem snapshot_paths_distinct (host : Host) (self : PythonInstrumenter)
    (file_a file_b content_a content_b : string) (rel_a rel_b : path)
    (st : store) :
  strip_parts (Path host file_a) (cwd host) = Some rel_a ->
  strip_parts (Path host file_b) (cwd host) = Some rel_b ->
  existsb (String.eqb "..") rel_a = false ->
  existsb (String.eqb "..") rel_b = false ->
  Path host file_a <> Path host file_b ->
  let first := _create_backup host self file_a content_a st in
  let second := _create_backup host self file_b content_b (snd first) in
  exists path_a path_b : path,
    fst first = inr path_a /\
    fst second = inr path_b /\
    path_a <> path_b /\
    strip_parts path_a (backup_dir self) = Some rel_a /\
    strip_parts path_b (backup_dir self) = Some rel_b /\
    snd second !! path_a = Some (translate_newlines (os host) content_a) /\
    snd second !! path_b = Some (translate_newlines (os host) content_b) /\
    fst (_get_backup_path host self file_a (snd second)) = inr path_a /\
    fst (_get_backup_path host self file_b (snd second)) = inr path_b.
Proof.
  intros Ha Hb _ _ Hne first second. subst first second.
  assert (Hdiff : (backup_dir self ++ rel_a)%list <>
                  (backup_dir self ++ rel_b)%list).
  { intros Heq%app_inv_head. apply Hne.
    apply strip_parts_app in Ha, Hb. by rewrite Ha, Hb, Heq. }
  unfold _create_backup, _get_backup_path, relative_to, open_write, lift,
    mbind, mret, io_bind, io_ret.
  rewrite Ha, Hb. cbn [fst snd].
  exists (backup_dir self ++ rel_a)%list, (backup_dir self ++ rel_b)%list.
  repeat apply conj; try reflexivity.
  - exact Hdiff.
  - apply strip_parts_under.
  - apply strip_parts_under.
  - rewrite lookup_insert_ne by (intros Heq; apply Hdiff; by rewrite Heq).
    apply lookup_insert_eq.
  - apply lookup_insert_eq.
Qed.

Lemma snapshot_paths_distinct_witness :
  let first :=
    _create_backup demo_host demo_self "/proj/app.py" nested_source
      demo_store in
  let second :=
    _create_backup demo_host demo_self "/proj/crlf.py" assignment_text
      (snd first) in
  exists path_a path_b : path,
    fst first = inr path_a /\
    fst second = inr path_b /\
    path_a <> path_b /\
    strip_parts path_a (backup_dir demo_self) = Some ["app.py"] /\
    strip_parts path_b (backup_dir demo_self) = Some ["crlf.py"] /\
    snd second !! path_a =
      Some (translate_newlines (os demo_host) nested_source) /\
    snd second !! path_b =
      Some (translate_newlines (os demo_host) assignment_text) /\
    fst (_get_backup_path demo_host demo_self "/proj/app.py" (snd second)) =
      inr path_a /\
    fst (_get_backup_path demo_host demo_self "/proj/crlf.py" (snd second)) =
      inr path_b.
Proof.
  apply (snapshot_paths_distinct demo_host demo_self "/proj/app.py"
           "/proj/crlf.py" nested_source assignment_text ["app.py"]
           ["crlf.py"] demo_store);
    vm_compute; (reflexivity || discriminate).
Defined.

(** ** Removing the instrumentation by text *)

Lemma split_on_cons (sep : ascii) (s : string) :
  exists piece pieces, split_on sep s = piece :: pieces.
Proof.
  destruct s as [|c s]; simpl; [by eexists _, _|].
  destruct (Ascii.eqb c sep); [by eexists _, _|].
  destruct (split_on sep s); by eexists _, _.
Qed.

(** Splitting at line feeds and joining with line feeds gives the text
    back. *)
Lemma join_lines_split (s : string) : join_lines (split_on LF s) = s.
Proof.
  induction s as [|c s IH]; [reflexivity|]. simpl.
  destruct (split_on_cons LF s) as (piece & pieces & E).
  rewrite E in *.
  destruct (Ascii.eqb_spec c LF) as [->|_].
  - change (join_lines (EmptyString :: piece :: pieces))
      with (String LF (join_lines (piece :: pieces))).
    by rewrite IH.
  - destruct pieces as [|next pieces].
    + simpl in *. by rewrite IH.
    + change (join_lines (String c piece :: next :: pieces))
        with (String c (piece ++ String LF (join_lines (next :: pieces)))).
      change (join_lines (piece :: next :: pieces))
        with (piece ++ String LF (join_lines (next :: pieces))) in IH.
      by rewrite IH.
Qed.

Lemma contains_app_r (a b needle : string) :
  contains b needle = true -> contains (a ++ b) needle = true.
Proof.
  intros H. induction a as [|c a IH]; [exact H|].
  change (String c a ++ b) with (String c (a ++ b)). simpl.
  rewrite IH. apply orb_true_r.
Qed.

Lemma contains_tail (c : ascii) (s needle : string) :
  contains s needle = true -> contains (String c s) needle = true.
Proof. intros H. simpl. rewrite H. apply orb_true_r. Qed.

(** A needle found in a line is found in the joined text. *)
Lemma contains_join_lines (lines : list string) (line needle : string) :
  line ∈ lines ->
  contains line needle = true ->
  contains (join_lines lines) needle = true.
Proof.
  intros Hin Hline. induction lines as [|other lines IH].
  - by apply elem_of_nil in Hin.
  - apply elem_of_cons in Hin as [->|Hin].
    + destruct lines as [|next lines]; [exact Hline|].
      change (join_lines (other :: next :: lines))
        with (other ++ String LF (join_lines (next :: lines))).
      by apply contains_app_l.
    + destruct lines as [|next lines]; [by apply elem_of_nil in Hin|].
      change (join_lines (other :: next :: lines))
        with (other ++ String LF (join_lines (next :: lines))).
      apply contains_app_r, contains_tail, IH, Hin.
Qed.

Lemma prefix_before_line_feed (needle x y : string) :
  no_newline needle = true ->
  String.prefix needle (x ++ String LF y) = true ->
  String.prefix needle x = true.
Proof.
  revert x. induction needle as [|d needle IH]; intros x Hneedle.
  - intros _. by destruct x.
  - simpl in Hneedle.
    apply andb_prop in Hneedle as [[_ Hlf]%andb_prop Hrest].
    destruct x as [|e x].
    + change (EmptyString ++ String LF y) with (String LF y). simpl.
      destruct (Ascii.ascii_dec d LF) as [->|_]; [|discriminate].
      by rewrite Ascii.eqb_refl in Hlf.
    + change (String e x ++ String LF y) with (String e (x ++ String LF y)).
      simpl. destruct (Ascii.ascii_dec d e); [by apply IH|discriminate].
Qed.

Lemma prefix_contains (needle s : string) :
  String.prefix needle s = true -> contains s needle = true.
Proof. intros H. destruct s; cbn [contains]; by rewrite H. Qed.

(** A needle without newline characters found in two joined texts is found
    in one of them. *)
Lemma contains_across_line_feed (a b needle : string) :
  no_newline needle = true ->
  needle <> EmptyString ->
  contains (a ++ String LF b) needle = true ->
  contains a needle = true \/ contains b needle = true.
Proof.
  intros Hneedle Hne. induction a as [|c a IH].
  - change (EmptyString ++ String LF b) with (String LF b). simpl.
    intros [H|H]%orb_prop; [|by right].
    apply (prefix_before_line_feed needle EmptyString b Hneedle) in H.
    destruct needle; [contradiction|discriminate].
  - change (String c a ++ String LF b) with (String c (a ++ String LF b)).
    intros H. simpl in H. apply orb_prop in H as [H|H].
    + left. apply prefix_contains.
      exact (prefix_before_line_feed needle (String c a) b Hneedle H).
    + destruct (IH H) as [Ha|Hb]; [left; by apply contains_tail|by right].
Qed.

Lemma contains_join_lines_inv (lines : list string) (needle : string) :
  no_newline needle = true ->
  needle <> EmptyString ->
  contains (join_lines lines) needle = true ->
  exists line, line ∈ lines /\ contains line needle = true.
Proof.
  intros Hneedle Hne. induction lines as [|line lines IH].
  - simpl. destruct needle; [contradiction|discriminate].
  - destruct lines as [|next lines].
    + intros H. exists line. split; [apply list_elem_of_here|exact H].
    + change (join_lines (line :: next :: lines))
        with (line ++ String LF (join_lines (next :: lines))).
      intros [H|H]%contains_across_line_feed; try assumption.
      * exists line. split; [apply list_elem_of_here|exact H].
      * destruct (IH H) as (l & Hin & Hl).
        exists l. split; [by apply list_elem_of_further|exact Hl].
Qed.

Lemma removal_clears_markers_aux (code : string) :
  _is_instrumented (_remove_instrumentation code) = false.
Proof.
  unfold _is_instrumented, _remove_instrumentation.
  apply orb_false_iff. split.
  - destruct (contains _ tracer_marker) eqn:E; [|reflexivity].
    apply contains_join_lines_inv in E as (line & Hin & Hline);
      [|reflexivity|discriminate].
    apply list_elem_of_filter in Hin as [Hclean _].
    rewrite Hline in Hclean. discriminate Hclean.
  - destruct (contains _ tracer_module) eqn:E; [|reflexivity].
    apply contains_join_lines_inv in E as (line & Hin & Hline);
      [|reflexivity|discriminate].
    apply list_elem_of_filter in Hin as [Hclean _].
    rewrite Hline, andb_false_r in Hclean. discriminate Hclean.
Qed.

(** The lines of a text without marker all pass the filter. *)
Lemma clean_lines_kept (code : string) :
  _is_instrumented code = false ->
  filter (fun line =>
            negb (contains line tracer_marker) &&
            negb (contains line tracer_module) = true)
         (split_on LF code) = split_on LF code.
Proof.
  unfold _is_instrumented. intros [Hm Hi]%orb_false_iff.
  assert (Hall : Forall (fun line =>
             negb (contains line tracer_marker) &&
             negb (contains line tracer_module) = true)
            (split_on LF code)).
  { apply Forall_forall. intros line Hin.
    apply andb_true_iff. split; apply negb_true_iff.
    - destruct (contains line tracer_marker) eqn:E; [|reflexivity].
      pose proof (contains_join_lines _ _ _ Hin E) as H.
      rewrite join_lines_split in H. congruence.
    - destruct (contains line tracer_module) eqn:E; [|reflexivity].
      pose proof (contains_join_lines _ _ _ Hin E) as H.
      rewrite join_lines_split in H. congruence. }
  induction Hall as [|line lines Hline _ IH]; [reflexivity|].
  rewrite filter_cons_True by exact Hline. by rewrite IH.
Qed.

(** X15.  The textual removal leaves no marker behind: its result is never
    recognised as instrumented, so the guard of [instrument_file] does not
    fire on it, and removing again changes nothing. *)
Theorem removal_clears_markers (code : string) :
  _is_instrumented (_remove_instrumentation code) = false /\
  _remove_instrumentation (_remove_instrumentation code) =
  _remove_instrumentation code.
Proof.
  split; [apply removal_clears_markers_aux|].
  unfold _remove_instrumentation at 1.
  rewrite clean_lines_kept by apply removal_clears_markers_aux.
  apply join_lines_split.
Qed.

(** X16.  On a text that holds no marker the textual removal changes
    nothing. *)
Theorem removal_keeps_clean_code (code : string) :
  _is_instrumented code = false ->
  _remove_instrumentation code = code.
Proof.
  intros Hclean. unfold _remove_instrumentation.
  rewrite clean_lines_kept by exact Hclean.
  apply join_lines_split.
Qed.

Lemma removal_keeps_clean_code_witness :
  _remove_instrumentation nested_source = nested_source.
Proof.
  apply (removal_keeps_clean_code nested_source). vm_compute. reflexivity.
Defined.

(** X17.  Without [restore], [uninstrument_file] on a readable file needs
    neither a backup nor a path under the working directory: it reports
    success and leaves in the file a text that is not recognised as
    instrumented, the very text read when that held no marker. *)
Theorem strip_mode_cleans_file (host : Host) (self : PythonInstrumenter)
    (file_path : string) (st : store) (raw : string) :
  st !! Path host file_path = Some raw ->
  let run := uninstrument_file host self file_path false st in
  exists cleaned,
    fst run = inr true /\
    snd run !! Path host file_path =
      Some (translate_newlines (os host) cleaned) /\
    _is_instrumented cleaned = false /\
    (_is_instrumented (universal_newlines raw) = false ->
     cleaned = universal_newlines raw).
Proof.
  intros Hraw run. subst run.
  exists (_remove_instrumentation (universal_newlines raw)).
  rewrite uninstrument_file_strip_unfold, Hraw. cbn [fst snd].
  split; [reflexivity|]. split; [apply lookup_insert_eq|].
  split; [apply removal_clears_markers_aux|].
  intros Hclean. unfold _remove_instrumentation.
  rewrite clean_lines_kept by exact Hclean.
  apply join_lines_split.
Qed.

Lemma strip_mode_cleans_file_witness :
  let run := uninstrument_file demo_host demo_self "/tmp/traced.py" false
               demo_store in
  exists cleaned,
    fst run = inr true /\
    snd run !! Path demo_host "/tmp/traced.py" =
      Some (translate_newlines (os demo_host) cleaned) /\
    _is_instrumented cleaned = false /\
    (_is_instrumented (universal_newlines traced_source) = false ->
     cleaned = universal_newlines traced_source).
Proof.
  apply (strip_mode_cleans_file demo_host demo_self "/tmp/traced.py"
           demo_store traced_source).
  vm_compute. reflexivity.
Defined.

(** X18.  In either mode [uninstrument_file] touches no path other than the
    file: the snapshot is never deleted or changed, and when the file to
    strip cannot be read, or there is nothing to restore, the store is the
    one it started from. *)
Theorem uninstrument_touches_file_only (host : Host)
    (self : PythonInstrumenter) (file_path : string) (restore : bool)
    (st : store) (p : path) :
  p <> Path host file_path ->
  let run := uninstrument_file host self file_path restore st in
  snd run !! p = st !! p /\
  (fst run = inr false -> snd run = st).
Proof.
  intros Hp run. subst run. destruct restore.
  - rewrite uninstrument_file_restore_unfold.
    destruct (strip_parts _ _) as [rel|]; [|by split].
    destruct (st !! (backup_dir self ++ rel)%list) as [saved|]; [|by split].
    cbn [fst snd]. split; [by rewrite lookup_insert_ne|discriminate].
  - rewrite uninstrument_file_strip_unfold.
    destruct (st !! Path host file_path) as [raw|]; [|by split].
    cbn [fst snd]. split; [by rewrite lookup_insert_ne|discriminate].
Qed.

Lemma uninstrument_touches_file_only_witness :
  let run := uninstrument_file demo_host demo_self "/proj/traced.py" false
               demo_store in
  snd run !! Path demo_host "/proj/app.py" =
    demo_store !! Path demo_host "/proj/app.py" /\
  (fst run = inr false -> snd run = demo_store).
Proof.
  apply (uninstrument_touches_file_only demo_host demo_self
           "/proj/traced.py" false demo_store).
  vm_compute. discriminate.
Defined.

(** ** What the two transformers leave alone *)

Lemma flat_map_map {A B C : Type} (f : A -> B) (g : B -> list C)
    (l : list A) :
  flat_map g (map f l) = flat_map (fun x => g (f x)) l.
Proof. induction l as [|x l IH]; [reflexivity|]. simpl. by rewrite IH. Qed.

Lemma flat_map_same {A B : Type} (f g : A -> list B) (l : list A) :
  Forall (fun x => f x = g x) l -> flat_map f l = flat_map g l.
Proof. induction 1 as [|x l Hx _ IH]; [reflexivity|]. simpl. by rewrite Hx, IH. Qed.

(** Induction over statements that also enters the bodies of
    definitions. *)
Section DeepInduction.

Variable P : stmt -> Prop.
Variable Q : excepthandler -> Prop.

Hypothesis P_FunctionDef :
  forall n a b d, Forall P b -> P (FunctionDef n a b d).
Hypothesis P_AsyncFunctionDef :
  forall n a b d, Forall P b -> P (AsyncFunctionDef n a b d).
Hypothesis P_ClassDef : forall n bs b d, Forall P b -> P (ClassDef n bs b d).
Hypothesis P_Return : forall v, P (Return v).
Hypothesis P_Assign : forall t v, P (Assign t v).
Hypothesis P_Expr : forall v, P (Expr v).
Hypothesis P_Raise : forall e, P (Raise e).
Hypothesis P_If : forall t b o, Forall P b -> Forall P o -> P (If t b o).
Hypothesis P_For :
  forall t i b o, Forall P b -> Forall P o -> P (For t i b o).
Hypothesis P_While : forall t b o, Forall P b -> Forall P o -> P (While t b o).
Hypothesis P_With : forall i b, Forall P b -> P (With i b).
Hypothesis P_Try :
  forall b hs o f,
    Forall P b -> Forall Q hs -> Forall P o -> Forall P f -> P (Try b hs o f).
Hypothesis P_Simple : forall src, P (Simple src).
Hypothesis Q_ExceptHandler :
  forall t n b, Forall P b -> Q (ExceptHandler t n b).

Fixpoint stmt_deep_ind (s : stmt) : P s :=
  match s with
  | FunctionDef n a b d =>
      P_FunctionDef n a b d (Forall_of P stmt_deep_ind b)
  | AsyncFunctionDef n a b d =>
      P_AsyncFunctionDef n a b d (Forall_of P stmt_deep_ind b)
  | ClassDef n bs b d => P_ClassDef n bs b d (Forall_of P stmt_deep_ind b)
  | Return v => P_Return v
  | Assign t v => P_Assign t v
  | Expr v => P_Expr v
  | Raise e => P_Raise e
  | If t b o =>
      P_If t b o (Forall_of P stmt_deep_ind b) (Forall_of P stmt_deep_ind o)
  | For t i b o =>
      P_For t i b o (Forall_of P stmt_deep_ind b)
            (Forall_of P stmt_deep_ind o)
  | While t b o =>
      P_While t b o (Forall_of P stmt_deep_ind b)
              (Forall_of P stmt_deep_ind o)
  | With i b => P_With i b (Forall_of P stmt_deep_ind b)
  | Try b hs o f =>
      P_Try b hs o f (Forall_of P stmt_deep_ind b)
            (Forall_of Q handler_deep_ind hs)
            (Forall_of P stmt_deep_ind o) (Forall_of P stmt_deep_ind f)
  | Simple src => P_Simple src
  end
with handler_deep_ind (h : excepthandler) : Q h :=
  match h with
  | ExceptHandler t n b => Q_ExceptHandler t n b (Forall_of P stmt_deep_ind b)
  end.

End DeepInduction.

Lemma all_definitions_visit (s : stmt) :
  all_definitions (ReturnTransformer.visit s) = all_definitions s.
Proof.
  induction s using stmt_deep_ind with
    (Q := fun h =>
            all_definitions_handler (ReturnTransformer.visit_handler h) =
            all_definitions_handler h);
    try reflexivity.
  all: try (destruct v; reflexivity).
  all: simpl; rewrite ?flat_map_map;
    repeat match goal with
    | H : Forall _ ?b |- _ =>
        rewrite (flat_map_same _ _ b H); clear H
    end;
    reflexivity.
Qed.

Lemma map_same {A B : Type} (f g : A -> B) (l : list A) :
  Forall (fun x => f x = g x) l -> map f l = map g l.
Proof.
  induction 1 as [|x l Hx _ IH]; [reflexivity|]. simpl. by rewrite Hx, IH.
Qed.

Lemma without_return_values_visit (s : stmt) :
  without_return_values (ReturnTransformer.visit s) =
  without_return_values s.
Proof.
  induction s using stmt_deep_ind with
    (Q := fun h =>
            handler_without_return_values
              (ReturnTransformer.visit_handler h) =
            handler_without_return_values h);
    try reflexivity.
  all: try (destruct v; reflexivity).
  all: simpl; rewrite ?map_map;
    repeat match goal with
    | H : Forall _ ?b |- _ => rewrite (map_same _ _ b H); clear H
    end;
    reflexivity.
Qed.

(** X19.  Rerouting the returns of a body changes the values of return
    statements and nothing else: with those values taken away the new body
    is the old one, statement for statement, with every header, name,
    parameter list, decorator and block as it was; in particular every
    block keeps its length, every statement that is not a return and has
    no block stays the same at its position, positions that held nothing
    hold nothing, and the definitions the body holds are the same. *)
Theorem transform_returns_touches_returns_only (body : list stmt) :
  map without_return_values (_transform_returns body) =
    map without_return_values body /\
  length (_transform_returns body) = length body /\
  (forall p s,
     stmt_at p body = Some s -> is_plain_stmt s = true ->
     stmt_at p (_transform_returns body) = Some s) /\
  (forall p,
     stmt_at p body = None -> stmt_at p (_transform_returns body) = None) /\
  flat_map all_definitions (_transform_returns body) =
  flat_map all_definitions body.
Proof.
  split; [|split; [apply length_map|split; [|split]]].
  - unfold _transform_returns. rewrite map_map.
    apply map_same, Forall_forall. intros s _.
    apply without_return_values_visit.
  - intros p s Hat Hplain. rewrite stmt_at_transform_returns, Hat.
    by destruct s.
  - intros p Hat. by rewrite stmt_at_transform_returns, Hat.
  - unfold _transform_returns. rewrite flat_map_map.
    apply flat_map_same, Forall_forall. intros s _.
    apply all_definitions_visit.
Qed.

(** A traversal that leaves the counter where it was has changed
    nothing. *)
Lemma visit_each_unchanged {A : Type} (visit : A -> nat -> A * nat)
    (l : list A) :
  Forall (fun x => forall k,
            k <= snd (visit x k) /\
            (snd (visit x k) = k -> visit x k = (x, k))) l ->
  forall n,
    n <= snd (FunctionWrapper.visit_each visit l n) /\
    (snd (FunctionWrapper.visit_each visit l n) = n ->
     FunctionWrapper.visit_each visit l n = (l, n)).
Proof.
  induction 1 as [|x l Hx _ IH]; intros n; simpl; [by split|].
  destruct (Hx n) as [Hle Hid].
  destruct (visit x n) as [x' n1]. simpl in *.
  destruct (IH n1) as [Hle' Hid'].
  destruct (FunctionWrapper.visit_each visit l n1) as [l' n2]. simpl in *.
  split; [lia|]. intros ->.
  assert (n1 = n) as -> by lia.
  injection (Hid eq_refl) as ->. injection (Hid' eq_refl) as ->.
  reflexivity.
Qed.

Ltac block_step :=
  match goal with
  | H : Forall _ ?b |- context [FunctionWrapper.visit_each ?f ?b ?m] =>
      let Hle := fresh "Hle" in
      let Hid := fresh "Hid" in
      destruct (visit_each_unchanged f b H m) as [Hle Hid];
      destruct (FunctionWrapper.visit_each f b m) as [? ?];
      simpl in Hle, Hid |- *; clear H
  end.

Lemma visit_unchanged host file_path options (s : stmt) :
  forall n,
    n <= snd (FunctionWrapper.visit host file_path options s n) /\
    (snd (FunctionWrapper.visit host file_path options s n) = n ->
     FunctionWrapper.visit host file_path options s n = (s, n)).
Proof.
  induction s using stmt_block_ind with
    (Q := fun h => forall n,
            n <= snd (FunctionWrapper.visit_handler host file_path options
                        h n) /\
            (snd (FunctionWrapper.visit_handler host file_path options h n)
             = n ->
             FunctionWrapper.visit_handler host file_path options h n =
             (h, n)));
    intros k; simpl; try (split; [lia|reflexivity]).
  - unfold FunctionWrapper.visit_FunctionDef.
    destruct (FunctionWrapper._should_instrument host options n); simpl;
      [|by split].
    repeat match goal with |- context [if ?c then _ else _] => destruct c end;
      simpl; (split; [lia|intros; lia]).
  - unfold FunctionWrapper.visit_AsyncFunctionDef.
    destruct (FunctionWrapper._should_instrument host options n); simpl;
      [|by split].
    repeat match goal with |- context [if ?c then _ else _] => destruct c end;
      simpl; (split; [lia|intros; lia]).
  - repeat block_step. split; [lia|]. intros ->.
    by rewrite (Hid eq_refl) || (injection (Hid eq_refl) as ->).
  - repeat block_step. split; [lia|]. intros ->.
    assert (n = k) as -> by lia.
    injection (Hid eq_refl) as ->. injection (Hid0 eq_refl) as ->.
    reflexivity.
  - repeat block_step. split; [lia|]. intros ->.
    assert (n = k) as -> by lia.
    injection (Hid eq_refl) as ->. injection (Hid0 eq_refl) as ->.
    reflexivity.
  - repeat block_step. split; [lia|]. intros ->.
    assert (n = k) as -> by lia.
    injection (Hid eq_refl) as ->. injection (Hid0 eq_refl) as ->.
    reflexivity.
  - repeat block_step. split; [lia|]. intros ->.
    injection (Hid eq_refl) as ->. reflexivity.
  - repeat block_step. split; [lia|]. intros ->.
    assert (n = k) as -> by lia.
    assert (n0 = k) as -> by lia.
    assert (n1 = k) as -> by lia.
    injection (Hid eq_refl) as ->. injection (Hid0 eq_refl) as ->.
    injection (Hid1 eq_refl) as ->. injection (Hid2 eq_refl) as ->.
    reflexivity.
  - repeat block_step. split; [lia|]. intros ->.
    injection (Hid eq_refl) as ->. reflexivity.
Qed.

(** X20.  A tree in which the policy admits no definition outside the
    bodies of other definitions comes out of the wrapper unchanged with a
    count of 0; the source emitted for such a file is that of the parsed
    tree itself. *)
Theorem nothing_admitted_nothing_changed host file_path options
    (code : string) (tree : module) :
  ast_parse host code = inr tree ->
  eligible_outer_definitions host options tree = 0 ->
  FunctionWrapper.visit_Module host file_path options tree 0 = (tree, 0) /\
  transformation host file_path options code = to_source host tree.
Proof.
  intros Hparse Hnone.
  assert (Hsame : FunctionWrapper.visit_Module host file_path options tree 0
                  = (tree, 0)).
  { pose proof (visit_Module_count host file_path options tree) as Hcount.
    rewrite Hnone in Hcount. destruct tree as [body].
    unfold FunctionWrapper.visit_Module in *.
    destruct (visit_each_unchanged
                (FunctionWrapper.visit host file_path options) body
                (Forall_of _ (visit_unchanged host file_path options) body)
                0) as [_ Hid].
    destruct (FunctionWrapper.visit_each _ body 0) as [body' k].
    simpl in *. subst k. by injection (Hid eq_refl) as ->. }
  split; [exact Hsame|].
  unfold transformation. by rewrite Hparse, Hsame.
Qed.

Lemma nothing_admitted_nothing_changed_witness :
  FunctionWrapper._should_instrument demo_host without_outer "outer" =
    false /\
  FunctionWrapper._should_instrument demo_host without_outer "inner" =
    true /\
  FunctionWrapper.visit_Module demo_host "/proj/app.py" without_outer
    nested_tree 0 = (nested_tree, 0) /\
  transformation demo_host "/proj/app.py" without_outer nested_source =
  to_source demo_host nested_tree.
Proof.
  split; [vm_compute; reflexivity|]. split; [vm_compute; reflexivity|].
  apply (nothing_admitted_nothing_changed demo_host "/proj/app.py"
           without_outer nested_source nested_tree);
    vm_compute; reflexivity.
Defined.

(** ** Which definitions the wrapper reaches *)

Lemma visit_each_tree {A : Type} (visit : A -> nat -> A * nat)
    (l : list A) :
  Forall (fun x => forall n, fst (visit x n) = fst (visit x 0)) l ->
  forall n,
    fst (FunctionWrapper.visit_each visit l n) =
    map (fun x => fst (visit x 0)) l.
Proof.
  induction 1 as [|x l Hx _ IH]; intros n; [reflexivity|]. simpl.
  specialize (Hx n). destruct (visit x n) as [x' n1]. simpl in Hx.
  specialize (IH n1).
  destruct (FunctionWrapper.visit_each visit l n1) as [l' n2].
  simpl in *. by rewrite Hx, IH.
Qed.

(** The tree the wrapper builds does not depend on the counter. *)
Lemma visit_tree host file_path options (s : stmt) :
  forall n,
    fst (FunctionWrapper.visit host file_path options s n) =
    fst (FunctionWrapper.visit host file_path options s 0).
Proof.
  induction s using stmt_block_ind with
    (Q := fun h => forall n,
            fst (FunctionWrapper.visit_handler host file_path options h n) =
            fst (FunctionWrapper.visit_handler host file_path options h 0));
    intros k; simpl; try reflexivity.
  - unfold FunctionWrapper.visit_FunctionDef.
    repeat match goal with |- context [if ?c then _ else _] => destruct c end;
      reflexivity.
  - unfold FunctionWrapper.visit_AsyncFunctionDef.
    repeat match goal with |- context [if ?c then _ else _] => destruct c end;
      reflexivity.
  - pose proof (visit_each_tree _ _ H k) as E1.
    pose proof (visit_each_tree _ _ H 0) as E2.
    do 2 destruct (FunctionWrapper.visit_each _ b _). simpl in *.
    by rewrite E1, E2.
  - pose proof (visit_each_tree _ _ H k) as E1.
    pose proof (visit_each_tree _ _ H 0) as E2.
    destruct (FunctionWrapper.visit_each _ b k) as [b1 k1].
    destruct (FunctionWrapper.visit_each _ b 0) as [b2 k2].
    pose proof (visit_each_tree _ _ H0 k1) as E3.
    pose proof (visit_each_tree _ _ H0 k2) as E4.
    destruct (FunctionWrapper.visit_each _ o k1).
    destruct (FunctionWrapper.visit_each _ o k2).
    simpl in *. by rewrite E1, E2, E3, E4.
  - pose proof (visit_each_tree _ _ H k) as E1.
    pose proof (visit_each_tree _ _ H 0) as E2.
    destruct (FunctionWrapper.visit_each _ b k) as [b1 k1].
    destruct (FunctionWrapper.visit_each _ b 0) as [b2 k2].
    pose proof (visit_each_tree _ _ H0 k1) as E3.
    pose proof (visit_each_tree _ _ H0 k2) as E4.
    destruct (FunctionWrapper.visit_each _ o k1).
    destruct (FunctionWrapper.visit_each _ o k2).
    simpl in *. by rewrite E1, E2, E3, E4.
  - pose proof (visit_each_tree _ _ H k) as E1.
    pose proof (visit_each_tree _ _ H 0) as E2.
    destruct (FunctionWrapper.visit_each _ b k) as [b1 k1].
    destruct (FunctionWrapper.visit_each _ b 0) as [b2 k2].
    pose proof (visit_each_tree _ _ H0 k1) as E3.
    pose proof (visit_each_tree _ _ H0 k2) as E4.
    destruct (FunctionWrapper.visit_each _ o k1).
    destruct (FunctionWrapper.visit_each _ o k2).
    simpl in *. by rewrite E1, E2, E3, E4.
  - pose proof (visit_each_tree _ _ H k) as E1.
    pose proof (visit_each_tree _ _ H 0) as E2.
    do 2 destruct (FunctionWrapper.visit_each _ b _). simpl in *.
    by rewrite E1, E2.
  - pose proof (visit_each_tree _ _ H k) as E1.
    pose proof (visit_each_tree _ _ H 0) as E2.
    destruct (FunctionWrapper.visit_each _ b k) as [b1 k1].
    destruct (FunctionWrapper.visit_each _ b 0) as [b2 k2].
    pose proof (visit_each_tree _ _ H0 k1) as E3.
    pose proof (visit_each_tree _ _ H0 k2) as E4.
    destruct (FunctionWrapper.visit_each _ hs k1) as [h1 k3].
    destruct (FunctionWrapper.visit_each _ hs k2) as [h2 k4].
    pose proof (visit_each_tree _ _ H1 k3) as E5.
    pose proof (visit_each_tree _ _ H1 k4) as E6.
    destruct (FunctionWrapper.visit_each _ o k3) as [o1 k5].
    destruct (FunctionWrapper.visit_each _ o k4) as [o2 k6].
    pose proof (visit_each_tree _ _ H2 k5) as E7.
    pose proof (visit_each_tree _ _ H2 k6) as E8.
    destruct (FunctionWrapper.visit_each _ f k5).
    destruct (FunctionWrapper.visit_each _ f k6).
    simpl in *. by rewrite E1, E2, E3, E4, E5, E6, E7, E8.
  - pose proof (visit_each_tree _ _ H k) as E1.
    pose proof (visit_each_tree _ _ H 0) as E2.
    do 2 destruct (FunctionWrapper.visit_each _ b _). simpl in *.
    by rewrite E1, E2.
Qed.

Lemma visit_block_tree host file_path options (block : list stmt) (n : nat) :
  fst (FunctionWrapper.visit_each
         (FunctionWrapper.visit host file_path options) block n) =
  map (wrapped host file_path options) block.
Proof.
  apply visit_each_tree, Forall_forall. intros s _.
  apply visit_tree.
Qed.

Lemma visit_handlers_tree host file_path options
    (handlers : list excepthandler) (n : nat) :
  fst (FunctionWrapper.visit_each
         (FunctionWrapper.visit_handler host file_path options) handlers n) =
  map (wrapped_handler host file_path options) handlers.
Proof.
  apply visit_each_tree, Forall_forall. intros [t name body] _ k. simpl.
  pose proof (visit_block_tree host file_path options body k) as E1.
  pose proof (visit_block_tree host file_path options body 0) as E2.
  do 2 destruct (FunctionWrapper.visit_each _ body _). simpl in *.
  by rewrite E1, E2.
Qed.

(** The wrapper enters every block of a statement that is not a
    definition. *)
Lemma block_of_wrapped host file_path options (f : field) (s : stmt) :
  is_function_def s = false ->
  block_of f (wrapped host file_path options s) =
  map (wrapped host file_path options) <$> block_of f s.
Proof.
  intros Hdef. unfold wrapped.
  destruct s; try discriminate Hdef; simpl;
    repeat match goal with
    | |- context [FunctionWrapper.visit_each
                    (FunctionWrapper.visit ?h ?p ?o) ?b ?m] =>
        let E := fresh "E" in
        pose proof (visit_block_tree h p o b m) as E;
        destruct (FunctionWrapper.visit_each
                    (FunctionWrapper.visit h p o) b m);
        simpl in E; subst
    | |- context [FunctionWrapper.visit_each
                    (FunctionWrapper.visit_handler ?h ?p ?o) ?b ?m] =>
        let E := fresh "E" in
        pose proof (visit_handlers_tree h p o b m) as E;
        destruct (FunctionWrapper.visit_each
                    (FunctionWrapper.visit_handler h p o) b m);
        simpl in E; subst
    end;
    destruct f; simpl; try reflexivity.
  rewrite lookup_map.
  destruct (handlers !! h) as [[t name hb]|]; [|reflexivity]. simpl.
  unfold wrapped_handler. simpl.
  pose proof (visit_block_tree host file_path options hb 0) as E.
  destruct (FunctionWrapper.visit_each _ hb 0). simpl in *. by rewrite E.
Qed.

Lemma stmt_at_steps_wrapped host file_path options
    (steps : list (nat * field)) (i : nat) (block : list stmt) :
  enters_function_def steps block = false ->
  stmt_at_steps steps i (map (wrapped host file_path options) block) =
  wrapped host file_path options <$> stmt_at_steps steps i block.
Proof.
  revert block. induction steps as [|[j f] steps IH]; intros block; simpl.
  - intros _. apply lookup_map.
  - rewrite lookup_map. destruct (block !! j) as [s|]; simpl; [|reflexivity].
    destruct (is_function_def s) eqn:Hdef.
    + destruct (block_of f s) eqn:Hblock; [discriminate|].
      intros _.
      destruct s; try discriminate Hdef; destruct f;
        try discriminate Hblock;
        unfold wrapped; simpl;
        unfold FunctionWrapper.visit_FunctionDef,
          FunctionWrapper.visit_AsyncFunctionDef;
        repeat match goal with
               | |- context [if ?c then _ else _] => destruct c
               end;
        reflexivity.
    + rewrite (block_of_wrapped _ _ _ _ _ Hdef).
      destruct (block_of f s) as [inner|]; simpl; [apply IH|reflexivity].
Qed.

(** X21.  Every statement of a module that is reached without entering the
    body of a function or coroutine definition, in a class body, under a
    conditional, loop, [with] or [try] at any depth, is replaced in place
    by what the wrapper makes of it: a definition admitted by the policy
    gets its wrapping there (at level 2 and above, the protected region
    with the returns rerouted), a definition the policy rejects and every
    simple statement stay what they were. *)
Theorem definitions_wrapped_in_place host file_path options (tree : module)
    (steps : list (nat * field)) (i : nat) (s : stmt) :
  enters_function_def steps (module_body tree) = false ->
  stmt_at (steps, i) (module_body tree) = Some s ->
  let new_tree :=
    fst (FunctionWrapper.visit_Module host file_path options tree 0) in
  stmt_at (steps, i) (module_body new_tree) =
    Some (wrapped host file_path options s) /\
  (is_function_def s = true ->
   FunctionWrapper._should_instrument host options (def_name s) = true ->
   (2 <= level options)%Z ->
   protected_region (wrapped host file_path options s) =
   _transform_returns (def_body s)) /\
  (is_function_def s = true ->
   FunctionWrapper._should_instrument host options (def_name s) = false ->
   wrapped host file_path options s = s) /\
  (is_plain_stmt s = true -> wrapped host file_path options s = s).
Proof.
  intros Hout Hat new_tree. subst new_tree.
  split; [|split; [|split]].
  - destruct tree as [body]. unfold FunctionWrapper.visit_Module.
    pose proof (visit_block_tree host file_path options body 0) as E.
    destruct (FunctionWrapper.visit_each _ body 0) as [body' k].
    simpl in *. subst body'. unfold stmt_at in *. simpl in *.
    by rewrite stmt_at_steps_wrapped, Hat.
  - intros Hdef Hpolicy Hlevel. by apply visit_wrapped_region.
  - intros Hdef Hpolicy. unfold wrapped.
    destruct s; try discriminate Hdef; simpl in *;
      unfold FunctionWrapper.visit_FunctionDef,
        FunctionWrapper.visit_AsyncFunctionDef;
      by rewrite Hpolicy.
  - intros Hplain. by destruct s.
Qed.

Lemma definitions_wrapped_in_place_witness :
  let new_tree :=
    fst (FunctionWrapper.visit_Module demo_host "/proj/app.py"
           default_options (Module class_tree) 0) in
  stmt_at ([(0, in_body)], 1) (module_body new_tree) =
    Some (wrapped demo_host "/proj/app.py" default_options method_def) /\
  (is_function_def method_def = true ->
   FunctionWrapper._should_instrument demo_host default_options
     (def_name method_def) = true ->
   (2 <= level default_options)%Z ->
   protected_region
     (wrapped demo_host "/proj/app.py" default_options method_def) =
   _transform_returns (def_body method_def)) /\
  (is_function_def method_def = true ->
   FunctionWrapper._should_instrument demo_host default_options
     (def_name method_def) = false ->
   wrapped demo_host "/proj/app.py" default_options method_def =
   method_def) /\
  (is_plain_stmt method_def = true ->
   wrapped demo_host "/proj/app.py" default_options method_def =
   method_def).
Proof.
  apply (definitions_wrapped_in_place demo_host "/proj/app.py"
           default_options (Module class_tree) [(0, in_body)] 1 method_def);
    reflexivity.
Defined.

(** ** Listing the functions of a file *)

Lemma list_sum_map_nodes (f : node -> nat) (g : stmt -> nat)
    (block : list stmt) :
  (forall s, f (NStmt s) = g s) ->
  list_sum (map f (map NStmt block)) = list_sum (map g block).
Proof.
  intros H. induction block as [|s block IH]; [reflexivity|].
  simpl. by rewrite H, IH.
Qed.

Lemma node_size_children (n : node) :
  node_size n = S (list_sum (map node_size (child_nodes n))).
Proof.
  destruct n as [[]|[]]; simpl;
    rewrite ?map_app, ?list_sum_app,
      ?(list_sum_map_nodes node_size stmt_size) by reflexivity;
    try reflexivity; try lia.
  f_equal. rewrite !Nat.add_assoc. f_equal. f_equal. f_equal.
  clear. induction handlers as [|h hs IH]; [reflexivity|].
  simpl. by rewrite IH.
Qed.

Lemma node_definitions_children (n : node) :
  node_definitions n =
  (definition_name n ++ flat_map node_definitions (child_nodes n))%list.
Proof.
  destruct n as [[]|[]]; simpl;
    rewrite ?flat_map_app, ?flat_map_map; reflexivity.
Qed.

(** With fuel for every node below the queue, the walk yields each
    definition below it once. *)
Lemma walk_definitions (fuel : nat) (todo : list node) :
  list_sum (map node_size todo) <= fuel ->
  flat_map definition_name (walk fuel todo) ≡ₚ
  flat_map node_definitions todo.
Proof.
  revert todo. induction fuel as [|fuel IH]; intros todo Hfuel.
  - destruct todo as [|n rest]; [reflexivity|].
    simpl in Hfuel. rewrite node_size_children in Hfuel. lia.
  - destruct todo as [|n rest]; [reflexivity|].
    simpl in *. rewrite node_size_children in Hfuel.
    rewrite IH.
    + rewrite flat_map_app, (node_definitions_children n).
      rewrite <- !app_assoc. apply Permutation_app_head.
      apply Permutation_app_comm.
    + rewrite map_app, list_sum_app. lia.
Qed.

Lemma walk_prefix (pre post : list node) (fuel : nat) :
  length pre <= fuel ->
  walk fuel (pre ++ post) =
  (pre ++ walk (fuel - length pre) (post ++ flat_map child_nodes pre))%list.
Proof.
  revert post fuel. induction pre as [|n pre IH]; intros post fuel Hfuel.
  - simpl. by rewrite Nat.sub_0_r, app_nil_r.
  - destruct fuel as [|fuel]; [simpl in Hfuel; lia|]. simpl in *.
    rewrite <- app_assoc, IH by lia.
    by rewrite <- app_assoc.
Qed.

Lemma length_le_size (todo : list node) :
  length todo <= list_sum (map node_size todo).
Proof.
  induction todo as [|n todo IH]; [reflexivity|]. simpl.
  rewrite node_size_children. lia.
Qed.

(** X22.  For a file that is read and parsed, [get_functions_in_file]
    returns the name of every function and coroutine definition of the
    file, each occurrence once, those nested in other definitions
    included; the definitions at module level come first, in source
    order.  The store is left as it was. *)
Theorem listing_holds_every_definition (host : Host) (file_path : string)
    (st : store) (raw : string) (tree : module) :
  st !! Path host file_path = Some raw ->
  ast_parse host (universal_newlines raw) = inr tree ->
  let run := get_functions_in_file host file_path st in
  exists names,
    fst run = inr names /\
    snd run = st /\
    names ≡ₚ flat_map all_definitions (module_body tree) /\
    exists nested,
      names =
      (flat_map definition_name (map NStmt (module_body tree)) ++ nested)%list.
Proof.
  intros Hraw Hparse run. subst run.
  exists (walk_function_names tree).
  unfold get_functions_in_file, try_except, open_read, lift, mbind, mret,
    io_bind, io_ret.
  rewrite Hraw, Hparse. cbn [fst snd].
  split; [reflexivity|]. split; [reflexivity|].
  unfold walk_function_names. split.
  - rewrite walk_definitions.
    + by rewrite flat_map_map.
    + by rewrite (list_sum_map_nodes node_size stmt_size).
  - pose proof (walk_prefix (map NStmt (module_body tree)) []
                  (list_sum (map stmt_size (module_body tree)))) as H.
    rewrite app_nil_r in H. rewrite H.
    + rewrite flat_map_app. by eexists.
    + rewrite <- (list_sum_map_nodes node_size stmt_size) by reflexivity.
      apply length_le_size.
Qed.

Lemma listing_holds_every_definition_witness :
  let run := get_functions_in_file demo_host "/proj/app.py" demo_store in
  exists names,
    fst run = inr names /\
    snd run = demo_store /\
    names ≡ₚ flat_map all_definitions (module_body nested_tree) /\
    exists nested,
      names =
      (flat_map definition_name (map NStmt (module_body nested_tree)) ++
       nested)%list.
Proof.
  apply (listing_holds_every_definition demo_host "/proj/app.py" demo_store
           nested_source nested_tree); vm_compute; reflexivity.
Defined.

(** X23.  When the file cannot be read or does not parse, the handler of
    [get_functions_in_file] prints a line and returns the empty list, as
    for a file without functions: the caller gets the empty list when the
    line is printed and the exception of [print] when printing raises, and
    the store is as it was either way. *)
Theorem listing_empty_on_failure (host : Host) (file_path : string)
    (st : store) (e : exn) :
  st !! Path host file_path = None /\ e = file_not_found \/
  (exists raw,
     st !! Path host file_path = Some raw /\
     ast_parse host (universal_newlines raw) = inl e) ->
  get_functions_in_file host file_path st =
  (match print host
           ("[Instrumenter] Failed to get functions: " ++ exn_str e) with
   | inl raised => inl raised
   | inr _ => inr []
   end, st).
Proof.
  unfold get_functions_in_file, try_except, open_read, lift, mbind, mret,
    io_bind, io_ret, listing_failure.
  intros [[Hnone ->]|(raw & Hraw & Hparse)].
  - rewrite Hnone. by destruct (print host _).
  - rewrite Hraw, Hparse. by destruct (print host _).
Qed.

Lemma listing_empty_on_failure_witness :
  get_functions_in_file demo_host "/proj/broken.py" demo_store =
    (inr [], demo_store) /\
  get_functions_in_file silenced_host "/proj/missing.py" demo_store =
    (inl closed_stdout, demo_store).
Proof.
  split.
  - apply (listing_empty_on_failure demo_host "/proj/broken.py" demo_store
             (Exc "SyntaxError" "invalid syntax")).
    right. exists broken_source. split; vm_compute; reflexivity.
  - apply (listing_empty_on_failure silenced_host "/proj/missing.py"
             demo_store file_not_found).
    left. split; [vm_compute|]; reflexivity.
Defined.
